(** * Environment control system: frame protocol, serial manager, auto control

    A shallow embedding of [web_environment_control.py] (the file
    [deploy_cloud.py] carries the same classes, comments apart).

    - Python [int] is [Z]; a [bytes] or [bytearray] value is a [list Z] whose
      elements satisfy [is_byte]; building one from an [int] outside
      [range(256)] raises [ValueError], which the model keeps.
    - Python [float] is IEEE binary64, here the primitive [float] of Rocq with
      its own comparison (false whenever an operand is NaN).
    - Methods that mutate [self] become functions that return the new object
      next to the returned value; a raised exception is [Raises]. *)

From Stdlib Require Import ZArith List String Bool Lia.
From Stdlib Require Import Floats.
From stdpp Require Import base list.
Import ListNotations.

(** ** Results of fallible calls *)

Inductive exn : Type :=
| ValueError
| IndexError
| StructError
| SerialException (msg : string).

(** [str(e)] *)
Definition exn_str (e : exn) : string :=
  match e with
  | ValueError => "bytes must be in range(0, 256)"
  | IndexError => "bytearray index out of range"
  | StructError => "unpack requires a buffer of 20 bytes"
  | SerialException msg => msg
  end.

Inductive result (A : Type) : Type :=
| Returns (a : A)
| Raises (e : exn).

Arguments Returns {A} a.
Arguments Raises {A} e.

Definition bind {A B : Type} (r : result A) (k : A -> result B) : result B :=
  match r with
  | Returns a => k a
  | Raises e => Raises e
  end.

Notation "'let!' x := r 'in' k" := (bind r (fun x => k))
  (at level 10, x name, r at level 100, k at level 200, only parsing).

(** ** Python sequence helpers *)

Section PySeq.
Local Open Scope Z_scope.

Definition is_byte (b : Z) : bool := (0 <=? b) && (b <? 256).

(** [bytes(iterable)] and [bytearray(iterable)]: every element has to be in
    [range(256)]. *)
Definition mk_bytes (l : list Z) : result (list Z) :=
  if forallb is_byte l then Returns l else Raises ValueError.

(** Index adjustment of a slice bound, for a sequence of length [n]. *)
Definition py_clamp (n i : Z) : Z :=
  if i <? 0 then Z.max (i + n) 0 else Z.min i n.

(** [l[start:stop]] *)
Definition py_slice {A : Type} (l : list A) (start stop : Z) : list A :=
  let n := Z.of_nat (List.length l) in
  let lo := py_clamp n start in
  let hi := py_clamp n stop in
  take (Z.to_nat (hi - lo)) (drop (Z.to_nat lo) l).
End PySeq.

(** ** The frame codec and the stream parser *)

Module Frame.
Local Open Scope Z_scope.

Definition SOF : Z := 0xAA.
Definition EOF : Z := 0x55.

Definition calc_cs (data : list Z) : Z :=
  let cs := fold_left Z.lxor data 0 in
  Z.land cs 0xFF.

Definition pack_frame (cmd : Z) (payload : list Z) : result (list Z) :=
  let length := 1 + Z.of_nat (List.length payload) in
  let! hdr := mk_bytes [length; cmd] in
  let body := hdr ++ payload in
  let cs := calc_cs body in
  let! sof := mk_bytes [SOF] in
  let! tl := mk_bytes [cs; EOF] in
  Returns (sof ++ body ++ tl).

Record FrameParser : Type := mkFrameParser {
  state : Z;
  buf : list Z;
  length : Z;
  expected_payload : Z;
  payload : list Z
}.

(** [FrameParser.__init__] *)
Definition init : FrameParser :=
  {| state := 0; buf := []; length := 0; expected_payload := 0;
     payload := [] |}.

Definition set_state (v : Z) (p : FrameParser) : FrameParser :=
  {| state := v; buf := buf p; length := length p;
     expected_payload := expected_payload p; payload := payload p |}.

Definition set_buf (v : list Z) (p : FrameParser) : FrameParser :=
  {| state := state p; buf := v; length := length p;
     expected_payload := expected_payload p; payload := payload p |}.

Definition set_length (v : Z) (p : FrameParser) : FrameParser :=
  {| state := state p; buf := buf p; length := v;
     expected_payload := expected_payload p; payload := payload p |}.

Definition set_expected_payload (v : Z) (p : FrameParser) : FrameParser :=
  {| state := state p; buf := buf p; length := length p;
     expected_payload := v; payload := payload p |}.

Definition set_payload (v : list Z) (p : FrameParser) : FrameParser :=
  {| state := state p; buf := buf p; length := length p;
     expected_payload := expected_payload p; payload := v |}.

(** A decoded frame: the pair [(cmd, payload)]. *)
Definition frame : Type := Z * list Z.

(** [FrameParser.feed]: the parser after the call and what the call
    returned.  [bytearray([b])] and [bytearray.append(b)] raise [ValueError]
    for [b] outside [range(256)]; [self.buf[0]] and [self.buf[1]] raise
    [IndexError] on a buffer that is too short. *)
Definition feed (self : FrameParser) (b : Z)
  : FrameParser * result (option frame) :=
  if state self =? 0 then
    if b =? SOF then
      let self := set_buf [] self in
      let self := set_state 1 self in
      (self, Returns None)
    else (self, Returns None)
  else if state self =? 1 then
    let self := set_length b self in
    if is_byte b then
      let self := set_buf [b] self in
      let self := set_state 2 self in
      (self, Returns None)
    else (self, Raises ValueError)
  else if state self =? 2 then
    if is_byte b then
      let self := set_buf (buf self ++ [b]) self in
      if length self =? 1 then
        let self := set_state 3 self in
        (self, Returns None)
      else
        let self := set_state 21 self in
        let self := set_expected_payload (length self - 1) self in
        let self := set_payload [] self in
        (self, Returns None)
    else (self, Raises ValueError)
  else if state self =? 21 then
    if is_byte b then
      let self := set_payload (payload self ++ [b]) self in
      if Z.of_nat (List.length (payload self)) >=? expected_payload self then
        let self := set_buf (buf self ++ payload self) self in
        let self := set_state 3 self in
        (self, Returns None)
      else (self, Returns None)
    else (self, Raises ValueError)
  else if state self =? 3 then
    let cs_calc := calc_cs (buf self) in
    if negb (cs_calc =? b) then
      let self := set_state 0 self in
      (self, Returns None)
    else
      let self := set_state 4 self in
      (self, Returns None)
  else if state self =? 4 then
    if b =? EOF then
      match buf self !! 0%nat, buf self !! 1%nat with
      | Some length, Some cmd =>
          let payload := py_slice (buf self) 2 (2 + (length - 1)) in
          let self := set_state 0 self in
          (self, Returns (Some (cmd, payload)))
      | _, _ => (self, Raises IndexError)
      end
    else
      let self := set_state 0 self in
      (self, Returns None)
  else (self, Returns None).

(** Feeding a sequence of bytes, one call of [feed] per byte, as the loop
    of [SerialManager._rx_worker] does; the results of the calls are kept
    in order. *)
Fixpoint feed_all (self : FrameParser) (data : list Z)
  : FrameParser * list (result (option frame)) :=
  match data with
  | [] => (self, [])
  | b :: rest =>
      let '(self, r) := feed self b in
      let '(self, rs) := feed_all self rest in
      (self, r :: rs)
  end.

(** The frames handed to the callback: the calls whose result is truthy. *)
Fixpoint decoded (rs : list (result (option frame))) : list frame :=
  match rs with
  | [] => []
  | Returns (Some f) :: rs => f :: decoded rs
  | _ :: rs => decoded rs
  end.
End Frame.

(** ** The serial manager *)

Module Serial.
Import Frame.
Local Open Scope string_scope.

(** The [serial.Serial] object as the program uses it: whether it is open,
    what has been written to it, and whether the device refuses a write
    (the message of the exception [write] then raises). *)
Record Port : Type := mkPort {
  device : string;
  baudrate : Z;
  is_open : bool;
  written : list (list Z);
  fault : option string
}.

Definition port_close (p : Port) : Port :=
  {| device := device p; baudrate := baudrate p; is_open := false;
     written := written p; fault := fault p |}.

(** [ser.write(frame)] *)
Definition port_write (p : Port) (data : list Z) : result Port :=
  if negb (is_open p) then
    Raises (SerialException "Attempting to use a port that is not open")
  else
    match fault p with
    | Some msg => Raises (SerialException msg)
    | None =>
        Returns {| device := device p; baudrate := baudrate p;
                   is_open := is_open p;
                   written := (written p ++ [data])%list;
                   fault := fault p |}
    end.

(** What the pyserial module answers when it could be imported. *)
Record SerialLib : Type := mkSerialLib {
  comports : result (list string);
  Serial : string -> Z -> result Port
}.

Record SerialManager : Type := mkSerialManager {
  ser : option Port;
  rx_thread : bool;
  stop_flag : bool;
  parser : FrameParser;
  connected : bool
}.

(** [SerialManager.__init__] *)
Definition init : SerialManager :=
  {| ser := None; rx_thread := false; stop_flag := false;
     parser := Frame.init; connected := false |}.

(** [SerialManager.disconnect] *)
Definition disconnect (self : SerialManager)
  : SerialManager * (bool * string) :=
  let ser' :=
    match ser self with
    | Some p => if is_open p then Some (port_close p) else Some p
    | None => None
    end in
  ({| ser := ser'; rx_thread := rx_thread self; stop_flag := true;
      parser := parser self; connected := false |},
   (true, "Disconnected")).

(** [SerialManager.send_command] *)
Definition send_command (self : SerialManager) (cmd : Z) (payload : list Z)
  : SerialManager * (bool * string) :=
  match connected self, ser self with
  | true, Some p =>
      match (let! frame := pack_frame cmd payload in port_write p frame) with
      | Returns p' =>
          ({| ser := Some p'; rx_thread := rx_thread self;
              stop_flag := stop_flag self; parser := parser self;
              connected := connected self |},
           (true, "Command sent"))
      | Raises e => (self, (false, "Send failed: " ++ exn_str e))
      end
  | _, _ => (self, (false, "Not connected"))
  end.

(** The assignment the receive loop makes to the parser it owns:
    [self.parser.feed(byte)] mutates [self.parser] in place. *)
Definition set_parser (v : FrameParser) (self : SerialManager) : SerialManager :=
  {| ser := ser self; rx_thread := rx_thread self; stop_flag := stop_flag self;
     parser := v; connected := connected self |}.

Section Library.
(** Whether [import serial] succeeded, and the module it bound. *)
Variable SERIAL_AVAILABLE : bool.
Variable serial : SerialLib.

(** [SerialManager.list_ports] *)
Definition list_ports (self : SerialManager) : list string :=
  if negb SERIAL_AVAILABLE then []
  else
    match comports serial with
    | Returns ports => ports
    | Raises _ => []
    end.

(** [SerialManager.connect] *)
Definition connect (self : SerialManager) (port : string) (baud : Z)
  : SerialManager * (bool * string) :=
  if negb SERIAL_AVAILABLE then (self, (false, "Serial library not available"))
  else
    let self :=
      match ser self with
      | Some p => if is_open p then fst (disconnect self) else self
      | None => self
      end in
    match Serial serial port baud with
    | Returns p =>
        ({| ser := Some p; rx_thread := true; stop_flag := false;
            parser := parser self; connected := true |},
         (true, "Connected to " ++ port))
    | Raises e => (self, (false, "Connection failed: " ++ exn_str e))
    end.
End Library.
End Serial.

(** ** [struct.unpack] for little-endian binary32 values *)

Section Unpack.
Local Open Scope Z_scope.

(** The unsigned integer a little-endian byte string stands for. *)
Fixpoint le_combine (bs : list Z) : Z :=
  match bs with
  | [] => 0
  | b :: bs => b + 256 * le_combine bs
  end.

(** The value of a binary32 bit pattern. *)
Definition f32_of_bits (bits : Z) : spec_float :=
  let sign := Z.testbit bits 31 in
  let e := Z.land (Z.shiftr bits 23) 0xFF in
  let m := Z.land bits 0x7FFFFF in
  if e =? 255 then
    if m =? 0 then S754_infinity sign else S754_nan
  else if e =? 0 then
    match m with
    | Zpos p => S754_finite sign p (-149)
    | _ => S754_zero sign
    end
  else
    match m + 0x800000 with
    | Zpos p => S754_finite sign p (e - 150)
    | _ => S754_zero sign
    end.

(** One ['<f'] field, widened to the binary64 of a Python [float]. *)
Definition unpack_f (bs : list Z) : float := SF2Prim (f32_of_bits (le_combine bs)).

(** The [i]-th field of four bytes. *)
Definition field (data : list Z) (i : nat) : float :=
  unpack_f (take 4 (drop (4 * i) data)).

(** [struct.unpack('<5f', data)]: a buffer of any other size than 20
    bytes raises [struct.error]. *)
Definition unpack_5f (data : list Z)
  : result (float * float * float * float * float) :=
  if Z.of_nat (List.length data) =? 20 then
    Returns (field data 0, field data 1, field data 2, field data 3,
             field data 4)
  else Raises StructError.
End Unpack.

(** ** Environment data and automatic control *)

Module Env.
Import Frame Serial.
Local Open Scope string_scope.

Record Data : Type := mkData {
  temperature : float;
  humidity : float;
  co2 : float;
  light : float;
  smoke : float;
  pm25 : option float
}.

(** The dict [device_states]: its six keys are created by [__init__] and
    no code path adds or removes a key, so it is a record of six flags;
    [items] lists them in the order of insertion. *)
Record DeviceStates : Type := mkDeviceStates {
  heating : bool;
  cooling : bool;
  humidify : bool;
  dehumidify : bool;
  ventilation : bool;
  close_vent : bool
}.

Definition items (ds : DeviceStates) : list (string * bool) :=
  [("heating", heating ds); ("cooling", cooling ds);
   ("humidify", humidify ds); ("dehumidify", dehumidify ds);
   ("ventilation", ventilation ds); ("close_vent", close_vent ds)].

Fixpoint lookup_key {V : Type} (k : string) (l : list (string * V)) : option V :=
  match l with
  | [] => None
  | (k', v) :: l => if String.eqb k' k then Some v else lookup_key k l
  end.

(** [device_states[dev]], [None] when [dev] is not a key. *)
Definition get (dev : string) (ds : DeviceStates) : option bool :=
  lookup_key dev (items ds).

Definition set_heating (v : bool) (ds : DeviceStates) : DeviceStates :=
  {| heating := v; cooling := cooling ds; humidify := humidify ds;
     dehumidify := dehumidify ds; ventilation := ventilation ds;
     close_vent := close_vent ds |}.

Definition set_cooling (v : bool) (ds : DeviceStates) : DeviceStates :=
  {| heating := heating ds; cooling := v; humidify := humidify ds;
     dehumidify := dehumidify ds; ventilation := ventilation ds;
     close_vent := close_vent ds |}.

Definition set_humidify (v : bool) (ds : DeviceStates) : DeviceStates :=
  {| heating := heating ds; cooling := cooling ds; humidify := v;
     dehumidify := dehumidify ds; ventilation := ventilation ds;
     close_vent := close_vent ds |}.

Definition set_dehumidify (v : bool) (ds : DeviceStates) : DeviceStates :=
  {| heating := heating ds; cooling := cooling ds; humidify := humidify ds;
     dehumidify := v; ventilation := ventilation ds;
     close_vent := close_vent ds |}.

Definition set_ventilation (v : bool) (ds : DeviceStates) : DeviceStates :=
  {| heating := heating ds; cooling := cooling ds; humidify := humidify ds;
     dehumidify := dehumidify ds; ventilation := v;
     close_vent := close_vent ds |}.

Definition set_close_vent (v : bool) (ds : DeviceStates) : DeviceStates :=
  {| heating := heating ds; cooling := cooling ds; humidify := humidify ds;
     dehumidify := dehumidify ds; ventilation := ventilation ds;
     close_vent := v |}.

(** [device_states[dev] = v] for a key [dev] of the dict. *)
Definition set (dev : string) (v : bool) (ds : DeviceStates) : DeviceStates :=
  if String.eqb dev "heating" then set_heating v ds
  else if String.eqb dev "cooling" then set_cooling v ds
  else if String.eqb dev "humidify" then set_humidify v ds
  else if String.eqb dev "dehumidify" then set_dehumidify v ds
  else if String.eqb dev "ventilation" then set_ventilation v ds
  else if String.eqb dev "close_vent" then set_close_vent v ds
  else ds.

Record Bounds : Type := mkBounds { min : float; max : float }.

(** The dict [thresholds]: [co2] and [smoke] carry a [max] only.  The
    bounds [__init__] writes are small [int]s and [update_threshold] stores
    [float(value)]; comparing a float with such an [int] is comparing it with
    the float of the same value, so every bound is a [float] here. *)
Record Thresholds : Type := mkThresholds {
  th_temperature : Bounds;
  th_humidity : Bounds;
  th_co2_max : float;
  th_light : Bounds;
  th_smoke_max : float
}.

Record Event : Type := mkEvent {
  timestamp : string;
  type : string;
  message : string;
  level : string
}.

(** The fields [history] and [running] are left out: no method below reads
    or writes them. *)
Record EnvironmentData : Type := mkEnvironmentData {
  data : Data;
  device_states : DeviceStates;
  thresholds : Thresholds;
  events : list Event;
  use_simulation : bool;
  data_mode : string;
  serial_manager : SerialManager
}.

(** [EnvironmentData.__init__] *)
Definition init : EnvironmentData :=
  {| data := {| temperature := 25; humidity := 60; co2 := 400;
                light := 350; smoke := 0; pm25 := None |};
     device_states := {| heating := false; cooling := false;
                         humidify := false; dehumidify := false;
                         ventilation := false; close_vent := false |};
     thresholds := {| th_temperature := {| min := 20; max := 26 |};
                      th_humidity := {| min := 40; max := 70 |};
                      th_co2_max := 1000;
                      th_light := {| min := 100; max := 800 |};
                      th_smoke_max := 50 |};
     events := [];
     use_simulation := true;
     data_mode := "simulation";
     serial_manager := Serial.init |}.

Definition set_data (v : Data) (e : EnvironmentData) : EnvironmentData :=
  {| data := v; device_states := device_states e;
     thresholds := thresholds e; events := events e;
     use_simulation := use_simulation e; data_mode := data_mode e;
     serial_manager := serial_manager e |}.

Definition set_device_states (v : DeviceStates) (e : EnvironmentData)
  : EnvironmentData :=
  {| data := data e; device_states := v;
     thresholds := thresholds e; events := events e;
     use_simulation := use_simulation e; data_mode := data_mode e;
     serial_manager := serial_manager e |}.

Definition set_thresholds (v : Thresholds) (e : EnvironmentData)
  : EnvironmentData :=
  {| data := data e; device_states := device_states e;
     thresholds := v; events := events e;
     use_simulation := use_simulation e; data_mode := data_mode e;
     serial_manager := serial_manager e |}.

Definition set_events (v : list Event) (e : EnvironmentData)
  : EnvironmentData :=
  {| data := data e; device_states := device_states e;
     thresholds := thresholds e; events := v;
     use_simulation := use_simulation e; data_mode := data_mode e;
     serial_manager := serial_manager e |}.

Definition set_serial_manager (v : SerialManager) (e : EnvironmentData)
  : EnvironmentData :=
  {| data := data e; device_states := device_states e;
     thresholds := thresholds e; events := events e;
     use_simulation := use_simulation e; data_mode := data_mode e;
     serial_manager := v |}.

(** [EnvironmentData.add_event]; [now] is the reading of the clock the
    call takes, already formatted. *)
Definition add_event (now : string) (event_type message level : string)
    (self : EnvironmentData) : EnvironmentData :=
  let event := {| timestamp := now; type := event_type;
                  message := message; level := level |} in
  let events := (events self ++ [event])%list in
  let events :=
    if (Z.of_nat (List.length events) >? 100)%Z then drop 1 events
    else events in
  set_events events self.

(** The loop [for change in changes: self.add_event("DEVICE", change,
    "INFO")]; the call for the [i]-th change reads the clock as
    [clock i]. *)
Fixpoint log_changes (clock : nat -> string) (i : nat)
    (changes : list string) (self : EnvironmentData) : EnvironmentData :=
  match changes with
  | [] => self
  | change :: rest =>
      log_changes clock (S i) rest
        (add_event (clock i) "DEVICE" change "INFO" self)
  end.

(** The temperature branch of [auto_control]. *)
Definition control_temperature (d : Data) (th : Thresholds)
    (st : DeviceStates * list string) : DeviceStates * list string :=
  let '(ds, changes) := st in
  if (temperature d <? min (th_temperature th))%float then
    if negb (heating ds) then
      let ds := set_heating true ds in
      let ds := set_cooling false ds in
      (ds, (changes ++ ["启动加热系统"])%list)
    else (ds, changes)
  else if (max (th_temperature th) <? temperature d)%float then
    if negb (cooling ds) then
      let ds := set_cooling true ds in
      let ds := set_heating false ds in
      (ds, (changes ++ ["启动制冷系统"])%list)
    else (ds, changes)
  else
    let '(ds, changes) :=
      if heating ds then
        (set_heating false ds, (changes ++ ["关闭加热系统"])%list)
      else (ds, changes) in
    if cooling ds then
      (set_cooling false ds, (changes ++ ["关闭制冷系统"])%list)
    else (ds, changes).

(** The humidity branch of [auto_control]. *)
Definition control_humidity (d : Data) (th : Thresholds)
    (st : DeviceStates * list string) : DeviceStates * list string :=
  let '(ds, changes) := st in
  if (humidity d <? min (th_humidity th))%float then
    if negb (humidify ds) then
      let ds := set_humidify true ds in
      let ds := set_dehumidify false ds in
      (ds, (changes ++ ["启动加湿系统"])%list)
    else (ds, changes)
  else if (max (th_humidity th) <? humidity d)%float then
    if negb (dehumidify ds) then
      let ds := set_dehumidify true ds in
      let ds := set_humidify false ds in
      (ds, (changes ++ ["启动除湿系统"])%list)
    else (ds, changes)
  else
    let '(ds, changes) :=
      if humidify ds then
        (set_humidify false ds, (changes ++ ["关闭加湿系统"])%list)
      else (ds, changes) in
    if dehumidify ds then
      (set_dehumidify false ds, (changes ++ ["关闭除湿系统"])%list)
    else (ds, changes).

(** The CO2 branch of [auto_control]. *)
Definition control_co2 (d : Data) (th : Thresholds)
    (st : DeviceStates * list string) : DeviceStates * list string :=
  let '(ds, changes) := st in
  if (th_co2_max th <? co2 d)%float then
    if negb (ventilation ds) then
      (set_ventilation true ds, (changes ++ ["启动通风系统"])%list)
    else (ds, changes)
  else
    if ventilation ds then
      (set_ventilation false ds, (changes ++ ["关闭通风系统"])%list)
    else (ds, changes).

(** [EnvironmentData.auto_control]; [a > b] on floats is [b < a]. *)
Definition auto_control (clock : nat -> string) (self : EnvironmentData)
  : EnvironmentData :=
  let changes : list string := [] in
  let st := (device_states self, changes) in
  let st := control_temperature (data self) (thresholds self) st in
  let st := control_humidity (data self) (thresholds self) st in
  let '(ds, changes) := control_co2 (data self) (thresholds self) st in
  let self := set_device_states ds self in
  log_changes clock 0 changes self.

(** [bool(device_byte & mask)] *)
Definition bit_set (device_byte mask : Z) : bool :=
  negb (Z.land device_byte mask =? 0)%Z.

(** [EnvironmentData.on_serial_data], for a [bytes] payload; an exception
    of [struct.unpack] is caught by the [except] branch, which logs it. *)
Definition on_serial_data (now : string) (cmd : Z) (payload : list Z)
    (self : EnvironmentData) : EnvironmentData :=
  if (cmd =? 0x01)%Z then
    if (Z.of_nat (List.length payload) >=? 20)%Z then
      match unpack_5f (py_slice payload 0 20) with
      | Returns (v0, v1, v2, v3, v4) =>
          let d := data self in
          let d := {| temperature := v0; humidity := v1; co2 := v2;
                      light := light d; smoke := v4; pm25 := Some v3 |} in
          let self := set_data d self in
          add_event now "SERIAL" "接收到环境数据" "INFO" self
      | Raises e =>
          add_event now "ERROR" ("串口数据解析错误: " ++ exn_str e) "ERROR"
            self
      end
    else self
  else if (cmd =? 0x02)%Z then
    match payload with
    | device_byte :: _ =>
        let ds := device_states self in
        let ds := set_heating (bit_set device_byte 0x01) ds in
        let ds := set_cooling (bit_set device_byte 0x02) ds in
        let ds := set_humidify (bit_set device_byte 0x04) ds in
        let ds := set_dehumidify (bit_set device_byte 0x08) ds in
        let ds := set_ventilation (bit_set device_byte 0x10) ds in
        let ds := set_close_vent (bit_set device_byte 0x20) ds in
        let self := set_device_states ds self in
        add_event now "SERIAL" "接收到设备状态" "INFO" self
    | [] => self
    end
  else self.

Definition device_map : list (string * Z) :=
  [("heating", 0x01); ("cooling", 0x02); ("humidify", 0x04);
   ("dehumidify", 0x08); ("ventilation", 0x10); ("close_vent", 0x20)]%Z.

(** The loop of [send_device_command] over [device_states.items()]. *)
Fixpoint status_loop (device : string) (state : bool)
    (its : list (string * bool)) (current_state : Z) : Z :=
  match its with
  | [] => current_state
  | (dev, is_on) :: rest =>
      let is_on := if String.eqb dev device then state else is_on in
      let current_state :=
        match is_on, lookup_key dev device_map with
        | true, Some mask => Z.lor current_state mask
        | _, _ => current_state
        end in
      status_loop device state rest current_state
  end.

(** [str(state)] inside the f-string of the event *)
Definition bool_str (b : bool) : string := if b then "True" else "False".

(** [EnvironmentData.send_device_command] *)
Definition send_device_command (now : string) (device : string)
    (state : bool) (self : EnvironmentData)
  : EnvironmentData * (bool * string) :=
  if negb (connected (serial_manager self)) then (self, (false, "串口未连接"))
  else
    match lookup_key device device_map with
    | Some _ =>
        let current_state :=
          status_loop device state (items (device_states self)) 0 in
        match mk_bytes [current_state] with
        | Returns payload =>
            let '(mgr, (success, msg)) :=
              send_command (serial_manager self) 0x03 payload in
            let self := set_serial_manager mgr self in
            let self :=
              if success then
                add_event now "SERIAL"
                  ("发送设备控制命令: " ++ device ++ "=" ++ bool_str state)
                  "INFO" self
              else self in
            (self, (success, msg))
        | Raises e => (self, (false, "发送命令失败: " ++ exn_str e))
        end
    | None => (self, (false, "未知设备"))
    end.

Definition assign_data_mode (v : string) (e : EnvironmentData)
  : EnvironmentData :=
  {| data := data e; device_states := device_states e;
     thresholds := thresholds e; events := events e;
     use_simulation := use_simulation e; data_mode := v;
     serial_manager := serial_manager e |}.

Definition assign_use_simulation (v : bool) (e : EnvironmentData)
  : EnvironmentData :=
  {| data := data e; device_states := device_states e;
     thresholds := thresholds e; events := events e;
     use_simulation := v; data_mode := data_mode e;
     serial_manager := serial_manager e |}.

(** What a call of [set_data_mode] ends with: the pair it returns, or the
    [UnboundLocalError] of reading [mode_name], a name that is bound only
    inside [if old_mode != mode]. *)
Inductive ModeOutcome : Type :=
| ModeReturns (success : bool) (message : string)
| ModeUnboundLocalError.

(** [EnvironmentData.set_data_mode], for a [mode] that is a string; the two
    calls of [add_event] read the clock as [clock 0] and [clock 1]. *)
Definition set_data_mode (clock : nat -> string) (mode : string)
    (self : EnvironmentData) : EnvironmentData * ModeOutcome :=
  if String.eqb mode "serial" || String.eqb mode "simulation" then
    let old_mode := data_mode self in
    let self := assign_data_mode mode self in
    let self := assign_use_simulation (String.eqb mode "simulation") self in
    if negb (String.eqb old_mode mode) then
      let mode_name :=
        if String.eqb mode "serial" then "串口数据" else "模拟数据" in
      let self :=
        add_event (clock 0%nat) "SYSTEM" ("数据模式切换到: " ++ mode_name)
          "INFO" self in
      let self :=
        if String.eqb mode "serial"
           && negb (connected (serial_manager self))
        then add_event (clock 1%nat) "WARNING" "串口模式已启用，但串口未连接"
               "WARNING" self
        else self in
      (self, ModeReturns true ("数据模式已切换到: " ++ mode_name))
    else (self, ModeUnboundLocalError)
  else (self, ModeReturns false "无效的数据模式").

(** [EnvironmentData.get_data_mode] *)
Definition get_data_mode (self : EnvironmentData) : string := data_mode self.

(** The loop [for byte in data] of [SerialManager._rx_worker], for the
    manager of an [EnvironmentData], whose callback is [on_serial_data].
    The byte at position [i] of the stream is fed to the parser; a frame it
    returns goes to the callback, which reads the clock as [clock i].  An
    exception of [feed] leaves the loop and ends the worker: the flag
    returned is [false] then, [true] when every byte was consumed. *)
Fixpoint rx_bytes (clock : nat -> string) (i : nat) (data : list Z)
    (self : EnvironmentData) : EnvironmentData * bool :=
  match data with
  | [] => (self, true)
  | byte :: rest =>
      let mgr := serial_manager self in
      let '(p, result) := feed (parser mgr) byte in
      let self := set_serial_manager (set_parser p mgr) self in
      match result with
      | Raises _ => (self, false)
      | Returns None => rx_bytes clock (S i) rest self
      | Returns (Some (cmd, payload)) =>
          rx_bytes clock (S i) rest
            (on_serial_data (clock i) cmd payload self)
      end
  end.

(** [SerialManager._rx_worker] over the successive results of
    [self.ser.read(self.ser.in_waiting)]: each read is handed to the loop
    above, and an exception leaves the [while] loop as well.  When the loop
    condition fails and how long the worker sleeps between reads is not
    modelled; [i] counts the bytes received before. *)
Fixpoint rx_worker (clock : nat -> string) (i : nat) (reads : list (list Z))
    (self : EnvironmentData) : EnvironmentData * bool :=
  match reads with
  | [] => (self, true)
  | data :: rest =>
      let '(self, running) := rx_bytes clock i data self in
      if running then rx_worker clock (i + List.length data) rest self
      else (self, false)
  end.
End Env.

(** ** The route [/api/control] *)

Module Web.
Import Env.
Local Open Scope string_scope.

(** The JSON body the route answers with. *)
Inductive Response : Type :=
| Success (device : string) (state : bool)
| Failure (error : string).

Definition device_names : list (string * string) :=
  [("heating", "加热系统"); ("cooling", "制冷系统");
   ("humidify", "加湿系统"); ("dehumidify", "除湿系统");
   ("ventilation", "通风系统"); ("close_vent", "通风关闭")].

(** [control_device], on the global [env_data], for a body whose [device]
    and [action] are strings. *)
Definition control_device (now : string) (device action : string)
    (env_data : EnvironmentData) : EnvironmentData * Response :=
  match get device (device_states env_data) with
  | Some old_state =>
      let new_state := String.eqb action "on" in
      let env_data :=
        set_device_states (set device new_state (device_states env_data))
          env_data in
      let env_data :=
        if negb (Bool.eqb old_state new_state) then
          let device_name :=
            match lookup_key device device_names with
            | Some n => n
            | None => device
            end in
          let action_text :=
            if String.eqb action "on" then "启动" else "关闭" in
          add_event now "MANUAL" ("手动" ++ action_text ++ device_name)
            "INFO" env_data
        else env_data in
      (env_data, Success device new_state)
  | None => (env_data, Failure "Invalid device")
  end.

(** [thresholds[sensor][threshold_type] = v] *)
Definition set_bound (threshold_type : string) (v : float) (b : Bounds)
  : Bounds :=
  if String.eqb threshold_type "min" then {| min := v; max := max b |}
  else {| min := min b; max := v |}.

(** The two tests of [update_threshold] and its assignment: [None] when
    [sensor] is no key of [thresholds], when [threshold_type] is neither
    ['min'] nor ['max'], or when the sensor's dict has no such key ([co2]
    and [smoke] have no ['min']). *)
Definition store_threshold (sensor threshold_type : string) (v : float)
    (th : Thresholds) : option Thresholds :=
  if negb (String.eqb threshold_type "min" || String.eqb threshold_type "max")
  then None
  else if String.eqb sensor "temperature" then
    Some {| th_temperature := set_bound threshold_type v (th_temperature th);
            th_humidity := th_humidity th; th_co2_max := th_co2_max th;
            th_light := th_light th; th_smoke_max := th_smoke_max th |}
  else if String.eqb sensor "humidity" then
    Some {| th_temperature := th_temperature th;
            th_humidity := set_bound threshold_type v (th_humidity th);
            th_co2_max := th_co2_max th;
            th_light := th_light th; th_smoke_max := th_smoke_max th |}
  else if String.eqb sensor "co2" then
    if String.eqb threshold_type "max" then
      Some {| th_temperature := th_temperature th;
              th_humidity := th_humidity th; th_co2_max := v;
              th_light := th_light th; th_smoke_max := th_smoke_max th |}
    else None
  else if String.eqb sensor "light" then
    Some {| th_temperature := th_temperature th;
            th_humidity := th_humidity th; th_co2_max := th_co2_max th;
            th_light := set_bound threshold_type v (th_light th);
            th_smoke_max := th_smoke_max th |}
  else if String.eqb sensor "smoke" then
    if String.eqb threshold_type "max" then
      Some {| th_temperature := th_temperature th;
              th_humidity := th_humidity th; th_co2_max := th_co2_max th;
              th_light := th_light th; th_smoke_max := v |}
    else None
  else None.

(** [update_threshold], on the global [env_data], for a body whose [sensor]
    and [type] are strings and whose [value] converts: [value] is
    [float(value)] and [value_text] is how the f-string of the event renders
    the value of the body.  The answer is the field [success]. *)
Definition update_threshold (now : string) (sensor threshold_type : string)
    (value : float) (value_text : string) (env_data : EnvironmentData)
  : EnvironmentData * bool :=
  match store_threshold sensor threshold_type value (thresholds env_data) with
  | Some th =>
      let env_data := set_thresholds th env_data in
      let env_data :=
        add_event now "SYSTEM"
          ("更新" ++ sensor ++ "阈值: " ++ threshold_type ++ "=" ++ value_text)
          "INFO" env_data in
      (env_data, true)
  | None => (env_data, false)
  end.

(** The JSON body of the two serial routes. *)
Record SerialReply : Type := mkSerialReply {
  reply_success : bool;
  reply_message : string;
  reply_connected : bool;
  reply_data_mode : string
}.

Section Routes.
(** Whether [import serial] succeeded, and the module it bound. *)
Variable SERIAL_AVAILABLE : bool.
Variable serial : Serial.SerialLib.

(** [connect_serial], for a body with a string [port] and an [int]
    [baudrate]. *)
Definition connect_serial (now : string) (port : string) (baudrate : Z)
    (env_data : EnvironmentData) : EnvironmentData * SerialReply :=
  let '(mgr, (success, message)) :=
    Serial.connect SERIAL_AVAILABLE serial (serial_manager env_data) port
      baudrate in
  let env_data := set_serial_manager mgr env_data in
  let env_data :=
    if success then
      let env_data :=
        if String.eqb (data_mode env_data) "serial"
        then assign_use_simulation false env_data
        else env_data in
      add_event now "SERIAL" ("串口连接成功: " ++ port) "INFO" env_data
    else env_data in
  (env_data,
   {| reply_success := success; reply_message := message;
      reply_connected := Serial.connected (serial_manager env_data);
      reply_data_mode := data_mode env_data |}).
End Routes.

(** [disconnect_serial]; the two calls of [add_event] read the clock as
    [clock 0] and [clock 1]. *)
Definition disconnect_serial (clock : nat -> string)
    (env_data : EnvironmentData) : EnvironmentData * SerialReply :=
  let '(mgr, (success, message)) :=
    Serial.disconnect (serial_manager env_data) in
  let env_data := set_serial_manager mgr env_data in
  let env_data :=
    if success then
      let env_data :=
        if String.eqb (data_mode env_data) "serial"
        then add_event (clock 0%nat) "WARNING"
               "串口已断开，但仍处于串口数据模式" "WARNING" env_data
        else env_data in
      add_event (clock 1%nat) "SERIAL" "串口连接已断开" "INFO" env_data
    else env_data in
  (env_data,
   {| reply_success := success; reply_message := message;
      reply_connected := Serial.connected (serial_manager env_data);
      reply_data_mode := data_mode env_data |}).
End Web.

(** * Vocabulary of the statements *)

Section FrameVocabulary.
Import Frame.
Local Open Scope Z_scope.

(** A [bytes] value: every element is in [range(256)]. *)
Definition is_bytes (data : list Z) : Prop :=
  Forall (fun b => is_byte b = true) data.

(** The bytes on the wire for [(cmd, payload)], as [pack_frame] lays them
    out. *)
Definition wire (cmd : Z) (pl : list Z) : list Z :=
  let len := 1 + Z.of_nat (List.length pl) in
  [SOF; len; cmd] ++ pl ++ [calc_cs ([len; cmd] ++ pl); EOF].

(** The frame with the byte before the terminator replaced by [bad]. *)
Definition corrupt_checksum (frame : list Z) (bad : Z) : list Z :=
  <[(List.length frame - 2)%nat := bad]> frame.
End FrameVocabulary.

Section ControlVocabulary.
Import Env.

(** Heating and cooling are not both on, nor humidify and dehumidify. *)
Definition exclusive (ds : DeviceStates) : Prop :=
  heating ds && cooling ds = false /\ humidify ds && dehumidify ds = false.

(** One call of [auto_control], after the sample and the thresholds took
    the given values. *)
Record TickInput : Type := mkTickInput {
  tick_clock : nat -> string;
  tick_data : Data;
  tick_thresholds : Thresholds
}.

Definition tick (i : TickInput) (env : EnvironmentData) : EnvironmentData :=
  auto_control (tick_clock i)
    (set_thresholds (tick_thresholds i) (set_data (tick_data i) env)).

Definition run_ticks (inputs : list TickInput) (env : EnvironmentData)
  : EnvironmentData :=
  fold_left (fun e i => tick i e) inputs env.

(** The threshold set with other bounds for light and smoke. *)
Definition with_light_smoke (l : Bounds) (s : float) (th : Thresholds)
  : Thresholds :=
  {| th_temperature := th_temperature th; th_humidity := th_humidity th;
     th_co2_max := th_co2_max th; th_light := l; th_smoke_max := s |}.

(** The three loops of [auto_control], as one function of the sample, the
    thresholds and the device flags. *)
Definition control (d : Data) (th : Thresholds) (ds : DeviceStates)
  : DeviceStates * list string :=
  control_co2 d th (control_humidity d th (control_temperature d th (ds, []))).
End ControlVocabulary.

Section HandlerVocabulary.
Import Env.
Local Open Scope string_scope.

(** The calls that write device flags. *)
Inductive Mutator : Type :=
| Tick (i : TickInput)
| DeviceFrame (now : string) (payload : list Z)
| Manual (now : string) (device action : string).

Definition mutate (m : Mutator) (env : EnvironmentData) : EnvironmentData :=
  match m with
  | Tick i => tick i env
  | DeviceFrame now payload => on_serial_data now 0x02 payload env
  | Manual now device action =>
      fst (Web.control_device now device action env)
  end.

Definition run (ms : list Mutator) (env : EnvironmentData) : EnvironmentData :=
  fold_left (fun e m => mutate m e) ms env.

(** A call that asks for nothing against the exclusion: any
    [auto_control]; a status byte without both bits of a pair; a manual
    request other than switching a device on while its opposite is on. *)
Definition keeps_exclusion (m : Mutator) (ds : DeviceStates) : bool :=
  match m with
  | Tick _ => true
  | DeviceFrame _ payload =>
      match payload with
      | [] => true
      | b :: _ =>
          negb (bit_set b 0x01 && bit_set b 0x02)
          && negb (bit_set b 0x04 && bit_set b 0x08)
      end
  | Manual _ device action =>
      negb (String.eqb action "on")
      || (if String.eqb device "heating" then negb (cooling ds)
          else if String.eqb device "cooling" then negb (heating ds)
          else if String.eqb device "humidify" then negb (dehumidify ds)
          else if String.eqb device "dehumidify" then negb (humidify ds)
          else true)
  end.

Fixpoint admissible (ms : list Mutator) (env : EnvironmentData) : bool :=
  match ms with
  | [] => true
  | m :: ms =>
      keeps_exclusion m (device_states env) && admissible ms (mutate m env)
  end.

(** In the words of the specification: the effective state of [device] is
    the desired one, that of any other device its recorded state; the
    status byte is the OR of the bits of the devices whose effective state
    is true. *)
Definition effective_state (device : string) (desired : bool)
    (ds : DeviceStates) (dev : string) : bool :=
  if String.eqb dev device then desired
  else match get dev ds with
       | Some is_on => is_on
       | None => false
       end.

Definition status_byte (device : string) (desired : bool)
    (ds : DeviceStates) : Z :=
  fold_right Z.lor 0%Z
    (map (fun '(dev, mask) =>
            if effective_state device desired ds dev then mask else 0%Z)
       device_map).

(** The manager is connected to an open port that accepts writes. *)
Definition link_up (env : EnvironmentData) : bool :=
  Serial.connected (serial_manager env)
  && match Serial.ser (serial_manager env) with
     | Some p =>
         Serial.is_open p
         && match Serial.fault p with
            | None => true
            | Some _ => false
            end
     | None => false
     end.

(** What has been written to the port so far. *)
Definition sent (env : EnvironmentData) : list (list Z) :=
  match Serial.ser (serial_manager env) with
  | Some p => Serial.written p
  | None => []
  end.
End HandlerVocabulary.

Section StreamVocabulary.
Import Frame.
Local Open Scope Z_scope.

(** A frame [pack_frame] accepts: a command byte and at most 254 payload
    bytes. *)
Definition frame_ok (f : frame) : bool :=
  is_byte (fst f) && forallb is_byte (snd f)
  && (Z.of_nat (List.length (snd f)) <=? 254).

(** What holds of a parser that has only been fed bytes since [__init__]:
    the buffer holds bytes, one in state 2 and two in state 21, at least two
    and at most 256 in states 3 and 4; in state 21 the payload holds bytes
    and is shorter than what is expected, or empty. *)
Definition parser_ok (p : FrameParser) : bool :=
  forallb is_byte (buf p)
  && (if state p =? 0 then true
      else if state p =? 1 then true
      else if state p =? 2 then
        (Z.of_nat (List.length (buf p)) =? 1) && is_byte (length p)
      else if state p =? 21 then
        (Z.of_nat (List.length (buf p)) =? 2)
        && forallb is_byte (payload p)
        && (Z.of_nat (List.length (payload p)) <? Z.max 1 (expected_payload p))
        && (expected_payload p <=? 254)
      else if (state p =? 3) || (state p =? 4) then
        (2 <=? Z.of_nat (List.length (buf p)))
        && (Z.of_nat (List.length (buf p)) <=? 256)
      else false).

(** The frames of a list, packed one after the other. *)
Fixpoint pack_stream (frames : list frame) : result (list Z) :=
  match frames with
  | [] => Returns []
  | (cmd, pl) :: rest =>
      let! f := pack_frame cmd pl in
      let! fs := pack_stream rest in
      Returns (f ++ fs)
  end.

(** The frame with its last byte, the terminator, replaced by [bad]. *)
Definition corrupt_terminator (frame : list Z) (bad : Z) : list Z :=
  <[(List.length frame - 1)%nat := bad]> frame.

(** No call raised. *)
Definition all_return {A : Type} (rs : list (result A)) : bool :=
  forallb (fun r => match r with Returns _ => true | Raises _ => false end) rs.
End StreamVocabulary.

Section LinkVocabulary.
Import Frame Serial.

(** The port is open and accepts writes. *)
Definition port_ready (p : Port) : bool :=
  is_open p && match fault p with None => true | Some _ => false end.

(** The manager is connected to a port that is open and accepts writes. *)
Definition manager_ready (m : SerialManager) : bool :=
  connected m && match ser m with Some p => port_ready p | None => false end.

(** What has been written to the manager's port so far. *)
Definition manager_sent (m : SerialManager) : list (list Z) :=
  match ser m with Some p => written p | None => [] end.
End LinkVocabulary.

Section LogVocabulary.
Import Env.
Local Open Scope string_scope.

(** The last [n] elements of a list. *)
Definition keep_last {A : Type} (n : nat) (l : list A) : list A :=
  drop (List.length l - n) l.

(** The entry [auto_control] logs for a change. *)
Definition device_event (now : string) (change : string) : Event :=
  {| timestamp := now; type := "DEVICE"; message := change; level := "INFO" |}.

(** The entries [auto_control] logs for its list of changes; the [i]-th
    call of [add_event] reads the clock as [clock i]. *)
Fixpoint device_events (clock : nat -> string) (i : nat)
    (changes : list string) : list Event :=
  match changes with
  | [] => []
  | change :: rest =>
      device_event (clock i) change :: device_events clock (S i) rest
  end.

(** The flags a pass of [auto_control] aims at for a sample: heating below
    the minimum, cooling above the maximum (and not below the minimum), the
    same for humidify and dehumidify, ventilation above the CO2 maximum;
    [close_vent] as it is. *)
Definition target_flags (d : Data) (th : Thresholds) (ds : DeviceStates)
  : DeviceStates :=
  let cold := (temperature d <? min (th_temperature th))%float in
  let hot := (max (th_temperature th) <? temperature d)%float in
  let dry := (humidity d <? min (th_humidity th))%float in
  let wet := (max (th_humidity th) <? humidity d)%float in
  {| heating := cold; cooling := negb cold && hot;
     humidify := dry; dehumidify := negb dry && wet;
     ventilation := (th_co2_max th <? co2 d)%float;
     close_vent := close_vent ds |}.
End LogVocabulary.

Section OperationVocabulary.
Import Env.
Local Open Scope string_scope.

(** The calls that change the state of the global [env_data]: the sample
    taking new values, a control pass, a decoded frame, bytes arriving at
    the receive loop, and the requests of the routes. *)
Inductive Operation : Type :=
| OpSample (d : Data)
| OpTick (clock : nat -> string)
| OpFrame (now : string) (cmd : Z) (payload : list Z)
| OpReceive (clock : nat -> string) (bytes : list Z)
| OpControl (now device action : string)
| OpSend (now device : string) (state : bool)
| OpMode (clock : nat -> string) (mode : string)
| OpThreshold (now sensor threshold_type : string) (value : float)
    (value_text : string)
| OpConnect (available : bool) (lib : Serial.SerialLib) (now port : string)
    (baudrate : Z)
| OpDisconnect (clock : nat -> string).

Definition perform (op : Operation) (env : EnvironmentData)
  : EnvironmentData :=
  match op with
  | OpSample d => set_data d env
  | OpTick clock => auto_control clock env
  | OpFrame now cmd payload => on_serial_data now cmd payload env
  | OpReceive clock bytes => fst (rx_bytes clock 0 bytes env)
  | OpControl now device action =>
      fst (Web.control_device now device action env)
  | OpSend now device state => fst (send_device_command now device state env)
  | OpMode clock mode => fst (set_data_mode clock mode env)
  | OpThreshold now sensor threshold_type value value_text =>
      fst (Web.update_threshold now sensor threshold_type value value_text env)
  | OpConnect available lib now port baudrate =>
      fst (Web.connect_serial available lib now port baudrate env)
  | OpDisconnect clock => fst (Web.disconnect_serial clock env)
  end.

Definition perform_all (ops : list Operation) (env : EnvironmentData)
  : EnvironmentData :=
  fold_left (fun e op => perform op e) ops env.

(** The state with the parser of its serial manager replaced. *)
Definition with_parser (p : Frame.FrameParser) (env : EnvironmentData)
  : EnvironmentData :=
  set_serial_manager (Serial.set_parser p (serial_manager env)) env.

(** The mode flags agree: [use_simulation] says whether [data_mode] is
    ['simulation'], and [data_mode] is one of the two modes. *)
Definition modes_agree (e : EnvironmentData) : Prop :=
  use_simulation e = String.eqb (data_mode e) "simulation" /\
  (data_mode e = "serial" \/ data_mode e = "simulation").

(** What arrives at the receive loop is a [bytes] object. *)
Definition receives_bytes (op : Operation) : bool :=
  match op with
  | OpReceive _ bytes => forallb is_byte bytes
  | _ => true
  end.
End OperationVocabulary.

Section ThresholdVocabulary.
Import Env.
Local Open Scope string_scope.


(** The entry a received sensor frame logs. *)
Definition sensor_event (now : string) : Event :=
  {| timestamp := now; type := "SERIAL"; message := "接收到环境数据";
     level := "INFO" |}.
End ThresholdVocabulary.

(** * The frame codec and the stream parser: facts *)

Section FrameFacts.
Import Frame.
Local Open Scope Z_scope.

Lemma is_byte_range b : is_byte b = true <-> 0 <= b < 256.
Proof. unfold is_byte. rewrite andb_true_iff, Z.leb_le, Z.ltb_lt. tauto. Qed.

Lemma feed_all_cons p b rest :
  feed_all p (b :: rest) =
  (fst (feed_all (fst (feed p b)) rest),
   snd (feed p b) :: snd (feed_all (fst (feed p b)) rest)).
Proof.
  cbn [feed_all]. destruct (feed p b) as [p1 r]. cbn [fst snd].
  now destruct (feed_all p1 rest).
Qed.

Lemma feed_all_app p xs ys :
  feed_all p (xs ++ ys) =
  (fst (feed_all (fst (feed_all p xs)) ys),
   snd (feed_all p xs) ++ snd (feed_all (fst (feed_all p xs)) ys)).
Proof.
  revert p. induction xs as [|x xs IH]; intros p; simpl.
  - now destruct (feed_all p ys).
  - destruct (feed p x) as [p1 r]. rewrite IH.
    destruct (feed_all p1 xs) as [p2 rs]. simpl.
    now destruct (feed_all p2 ys).
Qed.

(** The transitions of [feed], state by state. *)
Lemma feed_searching bf ln ex pl b :
  feed (mkFrameParser 0 bf ln ex pl) b =
  if b =? SOF then (mkFrameParser 1 [] ln ex pl, Returns None)
  else (mkFrameParser 0 bf ln ex pl, Returns None).
Proof. unfold feed. cbn. now destruct (b =? SOF). Qed.

Lemma feed_length bf ln ex pl b :
  is_byte b = true ->
  feed (mkFrameParser 1 bf ln ex pl) b =
  (mkFrameParser 2 [b] b ex pl, Returns None).
Proof. intros Hb. unfold feed. cbn. now rewrite Hb. Qed.

Lemma feed_command bf ln ex pl b :
  is_byte b = true ->
  feed (mkFrameParser 2 bf ln ex pl) b =
  if ln =? 1 then (mkFrameParser 3 (bf ++ [b]) ln ex pl, Returns None)
  else (mkFrameParser 21 (bf ++ [b]) ln (ln - 1) [], Returns None).
Proof. intros Hb. unfold feed. cbn. rewrite Hb. now destruct (ln =? 1). Qed.

Lemma feed_checksum bf ln ex pl b :
  feed (mkFrameParser 3 bf ln ex pl) b =
  if calc_cs bf =? b then (mkFrameParser 4 bf ln ex pl, Returns None)
  else (mkFrameParser 0 bf ln ex pl, Returns None).
Proof.
  unfold feed. cbn [state Z.eqb Pos.eqb buf set_state length
                    expected_payload payload].
  now destruct (calc_cs bf =? b).
Qed.

Lemma feed_terminator l c rest ln ex pl :
  feed (mkFrameParser 4 (l :: c :: rest) ln ex pl) EOF =
  (mkFrameParser 0 (l :: c :: rest) ln ex pl,
   Returns (Some (c, py_slice (l :: c :: rest) 2 (2 + (l - 1))))).
Proof. reflexivity. Qed.

Lemma feed_terminator_wrong bf ln ex pl b :
  b <> EOF ->
  feed (mkFrameParser 4 bf ln ex pl) b =
  (mkFrameParser 0 bf ln ex pl, Returns None).
Proof.
  intros Hb. unfold feed. cbn [state Z.eqb Pos.eqb].
  apply Z.eqb_neq in Hb. now rewrite Hb.
Qed.

(** The parser is total on the states a frame drives it through: in state
    21 it collects payload bytes until the announced number is there. *)
Lemma feed_payload bs : forall q,
  state q = 21 ->
  is_bytes bs ->
  bs <> [] ->
  expected_payload q = Z.of_nat (List.length (payload q) + List.length bs) ->
  feed_all q bs =
  ({| state := 3; buf := buf q ++ payload q ++ bs; length := length q;
      expected_payload := expected_payload q;
      payload := payload q ++ bs |},
   replicate (List.length bs) (Returns None)).
Proof.
  induction bs as [|b bs IH]; intros q Hst Hb Hne Hexp; [congruence|].
  inversion Hb as [|? ? Hb1 Hb2]; subst.
  cbn [feed_all]. unfold feed at 1. rewrite Hst. cbn [Z.eqb Pos.eqb].
  rewrite Hb1.
  cbn [set_payload set_buf set_state payload expected_payload buf state length].
  rewrite length_app. simpl List.length in *.
  destruct bs as [|b' bs].
  - replace (_ >=? _) with true
      by (symmetry; rewrite Z.geb_leb; apply Z.leb_le; simpl in Hexp; lia).
    reflexivity.
  - replace (_ >=? _) with false
      by (symmetry; rewrite Z.geb_leb; apply Z.leb_gt; simpl in Hexp; lia).
    rewrite IH.
    + unfold set_payload. cbn [state payload expected_payload buf length].
      now rewrite <- !app_assoc.
    + exact Hst.
    + exact Hb2.
    + discriminate.
    + cbn [set_payload expected_payload payload].
      rewrite Hexp, length_app. simpl. f_equal. lia.
Qed.

Lemma calc_cs_byte data : is_byte (calc_cs data) = true.
Proof.
  apply is_byte_range. unfold calc_cs.
  change 0xFF with (Z.ones 8). rewrite Z.land_ones by lia.
  apply Z.mod_pos_bound. lia.
Qed.

Lemma pack_frame_wire cmd pl :
  is_byte cmd = true ->
  (List.length pl <= 254)%nat ->
  pack_frame cmd pl = Returns (wire cmd pl).
Proof.
  intros Hc Hl. unfold pack_frame, mk_bytes, wire.
  cbn [forallb]. rewrite Hc.
  replace (is_byte (1 + Z.of_nat (List.length pl))) with true
    by (symmetry; apply is_byte_range; lia).
  cbn [andb bind]. rewrite calc_cs_byte. reflexivity.
Qed.

Lemma py_slice_body (a b : Z) (pl : list Z) :
  py_slice (a :: b :: pl) 2 (2 + (1 + Z.of_nat (List.length pl) - 1)) = pl.
Proof.
  unfold py_slice, py_clamp. simpl List.length.
  replace (2 <? 0) with false by reflexivity.
  replace (_ <? 0) with false by (symmetry; apply Z.ltb_ge; lia).
  rewrite (Z.min_l 2) by lia. rewrite Z.min_r by lia.
  change (Z.to_nat 2) with 2%nat. cbn [drop].
  apply firstn_all2. lia.
Qed.

Lemma replicate_snoc {A : Type} (n : nat) (x : A) :
  x :: replicate n x = replicate n x ++ [x].
Proof. induction n as [|n IH]; [reflexivity|]. cbn. now rewrite <- IH. Qed.

(** Start byte, length, command and payload of a well-formed frame take
    the parser from searching to the checksum state, with length, command
    and payload in the buffer. *)
Lemma feed_body p cmd pl :
  state p = 0 ->
  is_byte cmd = true ->
  is_bytes pl ->
  (List.length pl <= 254)%nat ->
  let len := 1 + Z.of_nat (List.length pl) in
  exists ex pl',
    feed_all p ([SOF; len; cmd] ++ pl) =
    (mkFrameParser 3 ([len; cmd] ++ pl) len ex pl',
     replicate (List.length pl + 3) (Returns None)).
Proof.
  intros Hst Hc Hb Hl len.
  assert (Hlen : is_byte len = true) by (apply is_byte_range; subst len; lia).
  destruct p as [st bf ln ex pl0]. cbn [state] in Hst. subst st.
  cbn [app]. rewrite !feed_all_cons.
  rewrite feed_searching, Z.eqb_refl. cbn [fst snd].
  rewrite feed_length by assumption. cbn [fst snd].
  rewrite feed_command by assumption. cbn [app].
  destruct pl as [|b0 pl].
  - subst len. simpl List.length. change (1 + Z.of_nat 0) with 1.
    change (1 =? 1) with true. cbn [fst snd app feed_all].
    now exists ex, pl0.
  - replace (len =? 1) with false
      by (symmetry; apply Z.eqb_neq; subst len; simpl List.length; lia).
    cbn [fst snd].
    rewrite (feed_payload (b0 :: pl) (mkFrameParser 21 [len; cmd] len (len - 1) [])).
    + cbn [fst snd payload buf state length expected_payload app].
      exists (len - 1), (b0 :: pl). f_equal.
      rewrite Nat.add_comm. reflexivity.
    + reflexivity.
    + exact Hb.
    + discriminate.
    + cbn [expected_payload payload]. subst len. simpl List.length. lia.
Qed.

Lemma wire_split cmd pl :
  wire cmd pl =
  ([SOF; 1 + Z.of_nat (List.length pl); cmd] ++ pl)
    ++ [calc_cs ([1 + Z.of_nat (List.length pl); cmd] ++ pl); EOF].
Proof. unfold wire. now rewrite <- app_assoc. Qed.

(** From the searching state, the bytes of a well-formed frame produce
    nothing until the terminator, which produces the frame and leaves the
    parser searching again. *)
Lemma feed_frame p cmd pl :
  state p = 0 ->
  is_byte cmd = true ->
  is_bytes pl ->
  (List.length pl <= 254)%nat ->
  snd (feed_all p (wire cmd pl)) =
    replicate (List.length pl + 4) (Returns None)
      ++ [Returns (Some (cmd, pl))] /\
  state (fst (feed_all p (wire cmd pl))) = 0.
Proof.
  intros Hst Hc Hb Hl.
  destruct (feed_body p cmd pl Hst Hc Hb Hl) as (ex & pl' & Hbody).
  rewrite wire_split, feed_all_app, Hbody. cbn [fst snd].
  rewrite !feed_all_cons, feed_checksum, Z.eqb_refl. cbn [fst snd app].
  rewrite feed_terminator, py_slice_body. cbn [fst snd feed_all].
  split; [|reflexivity].
  change [Returns None; Returns (Some (cmd, pl))]
    with ([@Returns (option frame) None] ++ [Returns (Some (cmd, pl))]).
  rewrite app_assoc, <- replicate_snoc.
  f_equal. now replace (List.length pl + 4)%nat with (S (List.length pl + 3)) by lia.
Qed.

(** A frame whose checksum byte is wrong produces nothing, and the parser
    is searching again after its terminator. *)
Lemma feed_corrupted p cmd pl bad :
  state p = 0 ->
  is_byte cmd = true ->
  is_bytes pl ->
  (List.length pl <= 254)%nat ->
  bad <> calc_cs ([1 + Z.of_nat (List.length pl); cmd] ++ pl) ->
  snd (feed_all p (([SOF; 1 + Z.of_nat (List.length pl); cmd] ++ pl)
                     ++ [bad; EOF])) =
    replicate (List.length pl + 5) (Returns None) /\
  state (fst (feed_all p (([SOF; 1 + Z.of_nat (List.length pl); cmd] ++ pl)
                            ++ [bad; EOF]))) = 0.
Proof.
  intros Hst Hc Hb Hl Hbad.
  destruct (feed_body p cmd pl Hst Hc Hb Hl) as (ex & pl' & Hbody).
  rewrite feed_all_app, Hbody. cbn [fst snd].
  rewrite !feed_all_cons, feed_checksum.
  replace (_ =? bad) with false
    by (symmetry; apply Z.eqb_neq; congruence).
  cbn [fst snd app]. rewrite feed_searching.
  change (EOF =? SOF) with false. cbn [fst snd feed_all state].
  split; [|reflexivity].
  change [Returns None; Returns None]
    with (replicate 2 (@Returns (option frame) None)).
  rewrite <- replicate_add. f_equal. lia.
Qed.

Lemma decoded_silent n f :
  decoded (replicate n (Returns None) ++ [Returns (Some f)]) = [f].
Proof. induction n as [|n IH]; [reflexivity|]. cbn. exact IH. Qed.

Lemma decoded_app rs1 rs2 : decoded (rs1 ++ rs2) = decoded rs1 ++ decoded rs2.
Proof.
  induction rs1 as [|[[f|]|e] rs1 IH]; cbn; [reflexivity| |exact IH|exact IH].
  now rewrite IH.
Qed.

Lemma decoded_nothing n : decoded (replicate n (Returns None)) = [].
Proof. induction n as [|n IH]; [reflexivity|]. cbn. exact IH. Qed.

Lemma wire_length cmd pl : List.length (wire cmd pl) = (List.length pl + 5)%nat.
Proof. unfold wire. cbn [app List.length]. rewrite length_app. simpl. lia. Qed.

Lemma corrupt_wire cmd pl bad :
  corrupt_checksum (wire cmd pl) bad =
  ([SOF; 1 + Z.of_nat (List.length pl); cmd] ++ pl) ++ [bad; EOF].
Proof.
  unfold corrupt_checksum. rewrite wire_length, wire_split.
  rewrite insert_app_r_alt by (rewrite length_app; simpl; lia).
  f_equal. rewrite length_app. simpl List.length.
  replace (_ - _)%nat with 0%nat by lia. reflexivity.
Qed.

Lemma lxor_byte a b :
  is_byte a = true -> is_byte b = true -> is_byte (Z.lxor a b) = true.
Proof.
  rewrite !is_byte_range. intros Ha Hb.
  assert (Hm : Z.lxor a b = Z.lxor a b mod 2 ^ 8).
  { apply Z.bits_inj'. intros n Hn.
    destruct (Z.ltb_spec n 8) as [Hlt|Hge].
    - now rewrite Z.mod_pow2_bits_low.
    - rewrite Z.mod_pow2_bits_high, Z.lxor_spec by lia.
      rewrite <- (Z.mod_small a (2 ^ 8)), <- (Z.mod_small b (2 ^ 8)) by lia.
      now rewrite !Z.mod_pow2_bits_high by lia. }
  rewrite Hm. apply Z.mod_pos_bound. lia.
Qed.

Lemma calc_cs_three a b c :
  is_byte a = true -> is_byte b = true -> is_byte c = true ->
  calc_cs [a; b; c] = Z.lxor (Z.lxor a b) c.
Proof.
  intros Ha Hb Hc. unfold calc_cs. cbn [fold_left]. rewrite Z.lxor_0_l.
  pose proof (lxor_byte _ _ (lxor_byte _ _ Ha Hb) Hc) as H.
  apply is_byte_range in H.
  change 0xFF with (Z.ones 8). rewrite Z.land_ones by lia.
  apply Z.mod_small. lia.
Qed.

(** C1. Round trip of the codec: for a command byte and a payload of at
    most 254 bytes, [pack_frame] returns a frame; fed byte by byte to a
    fresh parser, every call returns [None] except the call on the last
    byte, the terminator, which returns [(cmd, payload)]. *)
Theorem pack_feed_roundtrip cmd pl :
  is_byte cmd = true ->
  is_bytes pl ->
  (List.length pl <= 254)%nat ->
  exists frame,
    pack_frame cmd pl = Returns frame /\
    last frame = Some EOF /\
    snd (feed_all Frame.init frame) =
      replicate (List.length frame - 1) (Returns None)
        ++ [Returns (Some (cmd, pl))].
Proof.
  intros Hc Hb Hl. exists (wire cmd pl).
  split; [now apply pack_frame_wire|]. split.
  - rewrite wire_split. rewrite last_app. reflexivity.
  - destruct (feed_frame Frame.init cmd pl eq_refl Hc Hb Hl) as [Hrs _].
    rewrite Hrs, wire_length. do 2 f_equal. lia.
Qed.

Lemma pack_feed_roundtrip_witness :
  exists frame,
    pack_frame 3 [0x12] = Returns frame /\
    last frame = Some EOF /\
    snd (feed_all Frame.init frame) =
      replicate (List.length frame - 1) (Returns None)
        ++ [Returns (Some (3, [0x12]))].
Proof.
  apply (pack_feed_roundtrip 3 [0x12]).
  - reflexivity.
  - repeat constructor.
  - simpl. lia.
Defined.

(** C2. Resynchronisation: a frame whose checksum byte was replaced by a
    value other than the checksum, followed at once by a valid frame,
    makes a fresh parser return exactly one frame over the whole sequence,
    the second one, on the last byte. *)
Theorem resync_after_bad_checksum cmd1 pl1 cmd2 pl2 f1 f2 bad :
  is_byte cmd1 = true -> is_bytes pl1 -> (List.length pl1 <= 254)%nat ->
  is_byte cmd2 = true -> is_bytes pl2 -> (List.length pl2 <= 254)%nat ->
  pack_frame cmd1 pl1 = Returns f1 ->
  pack_frame cmd2 pl2 = Returns f2 ->
  bad <> calc_cs ([1 + Z.of_nat (List.length pl1); cmd1] ++ pl1) ->
  let rs := snd (feed_all Frame.init (corrupt_checksum f1 bad ++ f2)) in
  decoded rs = [(cmd2, pl2)] /\
  rs = replicate (List.length f1 + List.length f2 - 1) (Returns None)
         ++ [Returns (Some (cmd2, pl2))].
Proof.
  intros Hc1 Hb1 Hl1 Hc2 Hb2 Hl2 Hf1 Hf2 Hbad rs.
  rewrite pack_frame_wire in Hf1, Hf2 by assumption.
  injection Hf1 as <-. injection Hf2 as <-.
  assert (Hrs : rs = replicate (List.length (wire cmd1 pl1)
                                + List.length (wire cmd2 pl2) - 1)
                       (Returns None) ++ [Returns (Some (cmd2, pl2))]).
  { subst rs. rewrite corrupt_wire, feed_all_app. cbn [snd].
    destruct (feed_corrupted Frame.init cmd1 pl1 bad eq_refl Hc1 Hb1 Hl1 Hbad)
      as [Hrs1 Hst1].
    destruct (feed_frame _ cmd2 pl2 Hst1 Hc2 Hb2 Hl2) as [Hrs2 _].
    rewrite Hrs1, Hrs2, app_assoc, <- replicate_add, !wire_length.
    do 2 f_equal. lia. }
  split; [|exact Hrs].
  rewrite Hrs. apply decoded_silent.
Qed.

Lemma resync_after_bad_checksum_witness :
  let rs := snd (feed_all Frame.init
                   (corrupt_checksum [0xAA; 2; 1; 7; 4; 0x55] 0xAA
                      ++ [0xAA; 2; 3; 0x12; 0x13; 0x55])) in
  decoded rs = [(3, [0x12])] /\
  rs = replicate (6 + 6 - 1) (Returns None) ++ [Returns (Some (3, [0x12]))].
Proof.
  apply (resync_after_bad_checksum 1 [7] 3 [0x12]
           [0xAA; 2; 1; 7; 4; 0x55] [0xAA; 2; 3; 0x12; 0x13; 0x55] 0xAA).
  - reflexivity.
  - repeat constructor.
  - simpl. lia.
  - reflexivity.
  - repeat constructor.
  - simpl. lia.
  - reflexivity.
  - reflexivity.
  - discriminate.
Defined.

(** C9. A length byte of zero: in the stream [0xAA, 0x00, c, x, k, 0x55]
    the parser takes [x] as a payload byte (the expected payload length is
    [-1], and one byte is read before the test), checks [k] against the
    checksum of length, command and [x], and on the terminator returns
    [(c, [])]; a length byte of one gives the same frame from one byte
    less. *)
Theorem zero_length_consumes_extra_byte c x :
  is_byte c = true ->
  is_byte x = true ->
  let cs := Z.lxor (Z.lxor 0x00 c) x in
  fst (feed_all Frame.init [0xAA; 0x00; c; x]) =
    mkFrameParser 3 [0x00; c; x] 0 (-1) [x] /\
  snd (feed_all Frame.init [0xAA; 0x00; c; x; cs; 0x55]) =
    [Returns None; Returns None; Returns None; Returns None; Returns None;
     Returns (Some (c, []))] /\
  (forall k, k <> cs ->
     decoded (snd (feed_all Frame.init [0xAA; 0x00; c; x; k; 0x55])) = []) /\
  snd (feed_all Frame.init [0xAA; 0x01; c; calc_cs [0x01; c]; 0x55]) =
    [Returns None; Returns None; Returns None; Returns None;
     Returns (Some (c, []))].
Proof.
  intros Hc Hx cs.
  assert (Hcs : calc_cs [0; c; x] = cs)
    by (apply calc_cs_three; [reflexivity|assumption..]).
  assert (H4 : feed_all Frame.init [0xAA; 0x00; c; x] =
               (mkFrameParser 3 [0x00; c; x] 0 (-1) [x],
                replicate 4 (Returns None))).
  { unfold Frame.init. rewrite !feed_all_cons.
    rewrite feed_searching. change (0xAA =? SOF) with true. cbn [fst snd].
    rewrite feed_length by reflexivity. cbn [fst snd].
    rewrite feed_command by assumption. change (0 =? 1) with false.
    cbn [fst snd app].
    unfold feed. cbn [state Z.eqb Pos.eqb]. rewrite Hx. reflexivity. }
  split; [now rewrite H4|]. split; [|split].
  - change [0xAA; 0x00; c; x; cs; 0x55] with ([0xAA; 0x00; c; x] ++ [cs; 0x55]).
    rewrite feed_all_app, H4. cbn [fst snd].
    rewrite !feed_all_cons, feed_checksum, Hcs, Z.eqb_refl. cbn [fst snd].
    change 0x55 with EOF. rewrite feed_terminator. reflexivity.
  - intros k Hk.
    change [0xAA; 0x00; c; x; k; 0x55] with ([0xAA; 0x00; c; x] ++ [k; 0x55]).
    rewrite feed_all_app, H4. cbn [fst snd].
    rewrite !feed_all_cons, feed_checksum, Hcs.
    replace (cs =? k) with false by (symmetry; apply Z.eqb_neq; congruence).
    cbn [fst snd]. rewrite feed_searching. reflexivity.
  - unfold Frame.init. rewrite !feed_all_cons.
    rewrite feed_searching. change (0xAA =? SOF) with true. cbn [fst snd].
    rewrite feed_length by reflexivity. cbn [fst snd].
    rewrite feed_command by assumption. change (1 =? 1) with true.
    cbn [fst snd app].
    rewrite feed_checksum, Z.eqb_refl. cbn [fst snd].
    change 0x55 with EOF. rewrite feed_terminator. reflexivity.
Qed.

Lemma zero_length_consumes_extra_byte_witness :
  let cs := Z.lxor (Z.lxor 0x00 7) 9 in
  fst (feed_all Frame.init [0xAA; 0x00; 7; 9]) =
    mkFrameParser 3 [0x00; 7; 9] 0 (-1) [9] /\
  snd (feed_all Frame.init [0xAA; 0x00; 7; 9; cs; 0x55]) =
    [Returns None; Returns None; Returns None; Returns None; Returns None;
     Returns (Some (7, []))] /\
  (forall k, k <> cs ->
     decoded (snd (feed_all Frame.init [0xAA; 0x00; 7; 9; k; 0x55])) = []) /\
  snd (feed_all Frame.init [0xAA; 0x01; 7; calc_cs [0x01; 7]; 0x55]) =
    [Returns None; Returns None; Returns None; Returns None;
     Returns (Some (7, []))].
Proof. apply (zero_length_consumes_extra_byte 7 9); reflexivity. Defined.
End FrameFacts.

(** * The automatic control: facts *)

Section ControlFacts.
Import Env.
Local Open Scope string_scope.

Lemma add_event_frame now ty msg lvl e :
  data (add_event now ty msg lvl e) = data e /\
  device_states (add_event now ty msg lvl e) = device_states e /\
  thresholds (add_event now ty msg lvl e) = thresholds e /\
  serial_manager (add_event now ty msg lvl e) = serial_manager e.
Proof. now destruct e. Qed.

Lemma log_changes_frame clock changes : forall i e,
  data (log_changes clock i changes e) = data e /\
  device_states (log_changes clock i changes e) = device_states e /\
  thresholds (log_changes clock i changes e) = thresholds e /\
  serial_manager (log_changes clock i changes e) = serial_manager e.
Proof.
  induction changes as [|c changes IH]; intros i e; cbn [log_changes].
  - tauto.
  - destruct (IH (S i) (add_event (clock i) "DEVICE" c "INFO" e))
      as (-> & -> & -> & ->).
    apply add_event_frame.
Qed.

Lemma auto_control_unfold clock e :
  auto_control clock e =
  log_changes clock 0 (snd (control (data e) (thresholds e) (device_states e)))
    (set_device_states
       (fst (control (data e) (thresholds e) (device_states e))) e).
Proof.
  unfold auto_control, control.
  now destruct (control_co2 _ _ _) as [ds changes].
Qed.

Lemma auto_control_devices clock e :
  device_states (auto_control clock e) =
  fst (control (data e) (thresholds e) (device_states e)).
Proof.
  rewrite auto_control_unfold.
  destruct (log_changes_frame clock
              (snd (control (data e) (thresholds e) (device_states e))) 0
              (set_device_states
                 (fst (control (data e) (thresholds e) (device_states e))) e))
    as (_ & -> & _).
  reflexivity.
Qed.

(** The outcome of the five comparisons of [auto_control] is all the
    loops read of the sample and the thresholds; they are abstracted to
    booleans before the cases on the flags. *)
Ltac abstract_compare d th :=
  unfold control, control_co2, control_humidity, control_temperature;
  generalize (PrimFloat.ltb (temperature d) (min (th_temperature th)));
  generalize (PrimFloat.ltb (max (th_temperature th)) (temperature d));
  generalize (PrimFloat.ltb (humidity d) (min (th_humidity th)));
  generalize (PrimFloat.ltb (max (th_humidity th)) (humidity d));
  generalize (PrimFloat.ltb (th_co2_max th) (co2 d));
  intros co2_hi hum_hi hum_lo temp_hi temp_lo.

Lemma control_exclusive d th ds :
  exclusive ds -> exclusive (fst (control d th ds)).
Proof.
  unfold exclusive. abstract_compare d th.
  destruct ds as [h c hu de v cv]. cbn [heating cooling humidify dehumidify].
  intros [H1 H2].
  destruct h, c; try discriminate H1; destruct hu, de; try discriminate H2;
    destruct temp_lo, temp_hi, hum_lo, hum_hi, co2_hi, v; split; reflexivity.
Qed.

Lemma control_close_vent d th ds :
  close_vent (fst (control d th ds)) = close_vent ds.
Proof.
  abstract_compare d th. destruct ds as [h c hu de v cv].
  destruct temp_lo, temp_hi, hum_lo, hum_hi, co2_hi, h, c, hu, de, v;
    reflexivity.
Qed.

(** A second pass over the same sample and thresholds changes nothing. *)
Lemma control_idempotent d th ds :
  control d th (fst (control d th ds)) = (fst (control d th ds), []).
Proof.
  abstract_compare d th. destruct ds as [h c hu de v cv].
  destruct temp_lo, temp_hi, hum_lo, hum_hi, co2_hi, h, c, hu, de, v;
    reflexivity.
Qed.

Lemma tick_devices i e :
  device_states (tick i e) =
  fst (control (tick_data i) (tick_thresholds i) (device_states e)).
Proof. unfold tick. now rewrite auto_control_devices. Qed.

Lemma run_ticks_exclusive inputs : forall env,
  exclusive (device_states env) ->
  exclusive (device_states (run_ticks inputs env)).
Proof.
  induction inputs as [|i inputs IH]; intros env Hex; cbn [run_ticks fold_left].
  - exact Hex.
  - apply IH. rewrite tick_devices. now apply control_exclusive.
Qed.

(** C4. Mutual exclusion under [auto_control] alone: from device flags
    that are all false, after any sequence of calls, each with any sample
    and any thresholds, heating and cooling are not both on and humidify
    and dehumidify are not both on. *)
Theorem tick_mutual_exclusion inputs env :
  device_states env = device_states Env.init ->
  let ds := device_states (run_ticks inputs env) in
  heating ds && cooling ds = false /\
  humidify ds && dehumidify ds = false.
Proof.
  intros Hinit. apply run_ticks_exclusive. rewrite Hinit. now split.
Qed.

Lemma tick_mutual_exclusion_witness :
  let inputs :=
    [mkTickInput (fun _ => "08:00:00") (mkData 18 55 500 300 0 None)
       (thresholds Env.init);
     mkTickInput (fun _ => "08:00:02") (mkData 30 80 1500 300 0 None)
       (thresholds Env.init);
     mkTickInput (fun _ => "08:00:04") (mkData nan infinity 0 300 0 None)
       (with_light_smoke (mkBounds nan 0) 1 (thresholds Env.init))]%float in
  let ds := device_states (run_ticks inputs Env.init) in
  heating ds && cooling ds = false /\
  humidify ds && dehumidify ds = false.
Proof. intros inputs. apply (tick_mutual_exclusion inputs Env.init). reflexivity. Defined.

(** C5. Idempotent hysteresis: for every state, a second call of
    [auto_control] on the unchanged sample and thresholds appends nothing
    to the event log and leaves the device flags as the first call left
    them (the first call changes neither sample nor thresholds). *)
Theorem auto_control_twice clock1 clock2 env :
  let once := auto_control clock1 env in
  let twice := auto_control clock2 once in
  data once = data env /\
  thresholds once = thresholds env /\
  events twice = events once /\
  device_states twice = device_states once.
Proof.
  intros once twice.
  assert (Hd : data once = data env /\ thresholds once = thresholds env).
  { subst once. rewrite auto_control_unfold.
    destruct (log_changes_frame clock1
                (snd (control (data env) (thresholds env) (device_states env)))
                0 (set_device_states
                     (fst (control (data env) (thresholds env)
                             (device_states env))) env))
      as (-> & _ & -> & _).
    now split. }
  destruct Hd as [Hdata Hth].
  assert (Hds : device_states once =
                fst (control (data env) (thresholds env) (device_states env)))
    by apply auto_control_devices.
  assert (Htwice : twice = once).
  { subst twice. rewrite auto_control_unfold.
    rewrite Hdata, Hth, Hds, control_idempotent. cbn [fst snd log_changes].
    rewrite <- Hds. now destruct once. }
  rewrite Htwice. auto.
Qed.

(** C10. Frame of [auto_control]: the flag [close_vent] keeps its value,
    and the bounds for light and smoke are never read: replacing them
    before the call or after it gives the same state, so flags and event
    log do not depend on them. *)
Theorem auto_control_frame clock env l s :
  let th' := with_light_smoke l s (thresholds env) in
  close_vent (device_states (auto_control clock env)) =
    close_vent (device_states env) /\
  auto_control clock (set_thresholds th' env) =
    set_thresholds th' (auto_control clock env) /\
  device_states (auto_control clock (set_thresholds th' env)) =
    device_states (auto_control clock env) /\
  events (auto_control clock (set_thresholds th' env)) =
    events (auto_control clock env).
Proof.
  intros th'.
  assert (Hcomm : auto_control clock (set_thresholds th' env) =
                  set_thresholds th' (auto_control clock env)).
  { rewrite !auto_control_unfold.
    change (control (data (set_thresholds th' env))
              (thresholds (set_thresholds th' env))
              (device_states (set_thresholds th' env)))
      with (control (data env) (thresholds env) (device_states env)).
    generalize (snd (control (data env) (thresholds env) (device_states env))).
    generalize (fst (control (data env) (thresholds env) (device_states env))).
    intros ds changes. generalize 0%nat.
    change (set_device_states ds (set_thresholds th' env))
      with (set_thresholds th' (set_device_states ds env)).
    generalize (set_device_states ds env).
    induction changes as [|c changes IH]; intros e n; cbn [log_changes].
    - reflexivity.
    - rewrite <- IH. reflexivity. }
  split; [|split; [exact Hcomm|split]].
  - rewrite auto_control_devices. apply control_close_vent.
  - now rewrite Hcomm.
  - now rewrite Hcomm.
Qed.
End ControlFacts.

(** * Handlers, command builder and serial manager: facts *)

Section HandlerFacts.
Import Env.
Local Open Scope string_scope.

Lemma on_device_frame_devices now b rest env :
  device_states (on_serial_data now 0x02 (b :: rest) env) =
  {| heating := bit_set b 0x01; cooling := bit_set b 0x02;
     humidify := bit_set b 0x04; dehumidify := bit_set b 0x08;
     ventilation := bit_set b 0x10; close_vent := bit_set b 0x20 |}.
Proof.
  unfold on_serial_data. cbn [Z.eqb Pos.eqb].
  destruct (add_event_frame now "SERIAL" "接收到设备状态" "INFO"
              (set_device_states
                 (set_close_vent (bit_set b 32)
                    (set_ventilation (bit_set b 16)
                       (set_dehumidify (bit_set b 8)
                          (set_humidify (bit_set b 4)
                             (set_cooling (bit_set b 2)
                                (set_heating (bit_set b 1)
                                   (device_states env))))))) env))
    as (_ & -> & _).
  reflexivity.
Qed.

Lemma control_device_devices now device action env :
  device_states (fst (Web.control_device now device action env)) =
  match get device (device_states env) with
  | Some _ => set device (String.eqb action "on") (device_states env)
  | None => device_states env
  end.
Proof.
  unfold Web.control_device.
  destruct (get device (device_states env)) as [old|]; [|reflexivity].
  cbn [fst]. destruct (negb (Bool.eqb old (String.eqb action "on"))).
  - match goal with
    | |- device_states (add_event ?n ?t ?m ?l ?e) = _ =>
        destruct (add_event_frame n t m l e) as (_ & -> & _)
    end.
    reflexivity.
  - reflexivity.
Qed.

Lemma mutate_exclusive m env :
  exclusive (device_states env) ->
  keeps_exclusion m (device_states env) = true ->
  exclusive (device_states (mutate m env)).
Proof.
  intros Hex Hk. destruct m as [i|now payload|now device action];
    cbn [mutate].
  - rewrite tick_devices. now apply control_exclusive.
  - destruct payload as [|b rest]; [exact Hex|].
    rewrite on_device_frame_devices. cbn [keeps_exclusion] in Hk.
    unfold exclusive. cbn [heating cooling humidify dehumidify].
    destruct (bit_set b 1), (bit_set b 2), (bit_set b 4), (bit_set b 8);
      cbn in Hk; try discriminate Hk; now split.
  - rewrite control_device_devices.
    destruct (get device (device_states env)); [|exact Hex].
    revert Hex Hk. unfold exclusive, set. cbn [keeps_exclusion].
    destruct (device_states env) as [h c hu de v cv].
    destruct (String.eqb action "on"), (String.eqb device "heating"),
      (String.eqb device "cooling"), (String.eqb device "humidify"),
      (String.eqb device "dehumidify"), (String.eqb device "ventilation"),
      (String.eqb device "close_vent");
      cbn; intros [H1 H2] Hk; rewrite ?H1, ?H2;
      destruct h, c, hu, de; cbn in *; try discriminate; now split.
Qed.

(** C3, as the code has it: from device flags that are all false, after
    any sequence of [auto_control] calls, device-state frames whose status
    byte does not carry both bits of a pair, and manual requests that do
    not switch a device on while its opposite is on, heating and cooling
    are not both on and humidify and dehumidify are not both on. *)
Theorem guarded_mutual_exclusion ms : forall env,
  device_states env = device_states Env.init ->
  admissible ms env = true ->
  let ds := device_states (run ms env) in
  heating ds && cooling ds = false /\
  humidify ds && dehumidify ds = false.
Proof.
  intros env Hinit.
  assert (Hex : exclusive (device_states env)) by (rewrite Hinit; now split).
  clear Hinit. revert env Hex.
  induction ms as [|m ms IH]; intros env Hex Hadm; cbn [run fold_left].
  - exact Hex.
  - cbn [admissible] in Hadm. apply andb_true_iff in Hadm as [Hk Hadm].
    apply IH; [now apply mutate_exclusive|exact Hadm].
Qed.

Lemma guarded_mutual_exclusion_witness :
  let ms :=
    [Manual "08:00:00" "heating" "on";
     DeviceFrame "08:00:01" [0x16]%Z;
     Tick (mkTickInput (fun _ => "08:00:02")
             (mkData 30 30 500 300 0 None) (thresholds Env.init));
     Manual "08:00:03" "cooling" "off";
     Manual "08:00:04" "heating" "on"] in
  let ds := device_states (run ms Env.init) in
  heating ds && cooling ds = false /\
  humidify ds && dehumidify ds = false.
Proof.
  intros ms. apply (guarded_mutual_exclusion ms Env.init); reflexivity.
Defined.

(** C3, as stated, fails: one device-state frame with status byte [0x03]
    leaves heating and cooling both on, and two manual requests leave
    humidify and dehumidify both on. *)
Lemma mutators_break_exclusion :
  let ds1 := device_states (run [DeviceFrame "08:00:00" [0x03]%Z] Env.init) in
  let ds2 := device_states
               (run [Manual "08:00:00" "humidify" "on";
                     Manual "08:00:01" "dehumidify" "on"] Env.init) in
  heating ds1 && cooling ds1 = true /\
  humidify ds2 && dehumidify ds2 = true.
Proof. split; reflexivity. Qed.

(** C7, as the code has it: a sensor frame whose payload is shorter than
    20 bytes leaves the whole state as it was: the sample is unchanged,
    nothing is raised, and no event is appended to the log. *)
Theorem short_sensor_payload_ignored now payload env :
  (List.length payload < 20)%nat ->
  let env' := on_serial_data now 0x01 payload env in
  env' = env /\ data env' = data env /\ events env' = events env.
Proof.
  intros Hlen env'. subst env'. unfold on_serial_data. cbn [Z.eqb Pos.eqb].
  replace (Z.of_nat (List.length payload) >=? 20)%Z with false
    by (symmetry; rewrite Z.geb_leb; apply Z.leb_gt; lia).
  auto.
Qed.

Lemma short_sensor_payload_ignored_witness :
  let env' := on_serial_data "08:00:00" 0x01 [0; 0; 200; 65]%Z Env.init in
  env' = Env.init /\ data env' = data Env.init /\
  events env' = events Env.init.
Proof.
  apply (short_sensor_payload_ignored "08:00:00" [0; 0; 200; 65]%Z Env.init).
  simpl. lia.
Defined.

(** C7, as stated, fails: after a sensor frame of four bytes the event log
    is as empty as before, no entry records the ignored frame. *)
Lemma short_sensor_payload_logs_nothing :
  events Env.init = [] /\
  events (on_serial_data "08:00:00" 0x01 [0; 0; 200; 65]%Z Env.init) = [].
Proof. split; reflexivity. Qed.
End HandlerFacts.

Section CommandFacts.
Import Env.
Local Open Scope string_scope.

(** The loop of [send_device_command] computes the status byte of the
    specification, for any device name. *)
Lemma status_loop_spec device state ds :
  status_loop device state (items ds) 0 = status_byte device state ds.
Proof.
  unfold status_byte, effective_state. destruct ds as [h c hu de v cv].
  cbn [items status_loop device_map map fold_right heating cooling humidify
       dehumidify ventilation close_vent].
  change (lookup_key "heating" device_map) with (Some 0x01%Z).
  change (lookup_key "cooling" device_map) with (Some 0x02%Z).
  change (lookup_key "humidify" device_map) with (Some 0x04%Z).
  change (lookup_key "dehumidify" device_map) with (Some 0x08%Z).
  change (lookup_key "ventilation" device_map) with (Some 0x10%Z).
  change (lookup_key "close_vent" device_map) with (Some 0x20%Z).
  change (get "heating" (mkDeviceStates h c hu de v cv)) with (Some h).
  change (get "cooling" (mkDeviceStates h c hu de v cv)) with (Some c).
  change (get "humidify" (mkDeviceStates h c hu de v cv)) with (Some hu).
  change (get "dehumidify" (mkDeviceStates h c hu de v cv)) with (Some de).
  change (get "ventilation" (mkDeviceStates h c hu de v cv)) with (Some v).
  change (get "close_vent" (mkDeviceStates h c hu de v cv)) with (Some cv).
  cbn beta iota.
  generalize (if String.eqb "heating" device then state else h).
  generalize (if String.eqb "cooling" device then state else c).
  generalize (if String.eqb "humidify" device then state else hu).
  generalize (if String.eqb "dehumidify" device then state else de).
  generalize (if String.eqb "ventilation" device then state else v).
  generalize (if String.eqb "close_vent" device then state else cv).
  intros [] [] [] [] [] []; reflexivity.
Qed.

Lemma status_byte_is_byte device state ds :
  is_byte (status_byte device state ds) = true.
Proof.
  unfold status_byte. cbn [device_map map fold_right].
  generalize (effective_state device state ds "heating").
  generalize (effective_state device state ds "cooling").
  generalize (effective_state device state ds "humidify").
  generalize (effective_state device state ds "dehumidify").
  generalize (effective_state device state ds "ventilation").
  generalize (effective_state device state ds "close_vent").
  intros [] [] [] [] [] []; reflexivity.
Qed.

Lemma known_device device :
  In device (map fst device_map) ->
  exists mask, lookup_key device device_map = Some mask.
Proof.
  cbn. intros [<-|[<-|[<-|[<-|[<-|[<-|[]]]]]]]; eexists; reflexivity.
Qed.

(** C6. Command builder: for each of the six device names, each desired
    state and each device state set, the frame [send_device_command]
    writes is the command-0x03 frame whose one payload byte is the OR of
    the bits of the devices whose effective state is true; it is written
    exactly when the manager is connected to an open port, and the call
    then succeeds.  Cooling on with only ventilation recorded on gives
    [0x12]. *)
Theorem send_device_command_status now device state env :
  In device (map fst device_map) ->
  let status := status_byte device state (device_states env) in
  let r := send_device_command now device state env in
  exists frame,
    Frame.pack_frame 0x03 [status] = Returns frame /\
    frame !! 3%nat = Some status /\
    List.length frame = 6%nat /\
    fst (snd r) = link_up env /\
    sent (fst r) = (sent env ++ if link_up env then [frame] else [])%list /\
    status_byte "cooling" true
      (mkDeviceStates false false false false true false) = 0x12%Z.
Proof.
  intros Hdev status r.
  assert (Hbyte : is_byte status = true) by apply status_byte_is_byte.
  exists (wire 0x03 [status]).
  assert (Hpack : Frame.pack_frame 3 [status] = Returns (wire 3 [status]))
    by (apply pack_frame_wire; [reflexivity|simpl; lia]).
  split; [exact Hpack|]. split; [reflexivity|]. split; [reflexivity|].
  assert (Hr : fst (snd r) = link_up env /\
               sent (fst r) =
               (sent env ++ if link_up env then [wire 3 [status]] else [])%list).
  { subst r. unfold send_device_command, link_up, sent.
    destruct (known_device device Hdev) as [mask ->].
    rewrite status_loop_spec. fold status.
    unfold mk_bytes. cbn [forallb]. rewrite Hbyte. cbn [andb].
    unfold Serial.send_command. rewrite Hpack. cbn [bind].
    destruct env as [d ds th ev us dm [ser rx stop parser conn]].
    cbn [serial_manager Serial.connected Serial.ser negb].
    destruct conn; cbn [negb andb fst snd serial_manager Serial.ser];
      [|now rewrite app_nil_r].
    destruct ser as [[dev baud opn wr flt]|];
      cbn [fst snd serial_manager Serial.ser]; [|now rewrite app_nil_r].
    unfold Serial.port_write.
    cbn [Serial.is_open Serial.fault Serial.written].
    destruct opn; cbn [negb andb];
      [|cbn [fst snd serial_manager Serial.ser Serial.written];
        now rewrite app_nil_r].
    destruct flt as [msg|];
      cbn [fst snd serial_manager Serial.ser Serial.written];
      [now rewrite app_nil_r|].
    split; [reflexivity|].
    match goal with
    | |- context [add_event ?n ?t ?m ?l ?e] =>
        destruct (add_event_frame n t m l e) as (_ & _ & _ & ->)
    end.
    reflexivity. }
  destruct Hr as [Hs Hw]. split; [exact Hs|]. split; [exact Hw|reflexivity].
Qed.

Lemma send_device_command_status_witness :
  let env :=
    set_serial_manager
      {| Serial.ser := Some (Serial.mkPort "COM3" 115200 true [] None);
         Serial.rx_thread := true; Serial.stop_flag := false;
         Serial.parser := Frame.init; Serial.connected := true |}
      (set_device_states
         (mkDeviceStates false false false false true false) Env.init) in
  let status := status_byte "cooling" true (device_states env) in
  let r := send_device_command "08:00:00" "cooling" true env in
  exists frame,
    Frame.pack_frame 0x03 [status] = Returns frame /\
    frame !! 3%nat = Some status /\
    List.length frame = 6%nat /\
    fst (snd r) = link_up env /\
    sent (fst r) = (sent env ++ if link_up env then [frame] else [])%list /\
    status_byte "cooling" true
      (mkDeviceStates false false false false true false) = 0x12%Z.
Proof.
  intros env.
  apply (send_device_command_status "08:00:00" "cooling" true env).
  cbn. auto.
Defined.

(** C8. Without the serial library ([SERIAL_AVAILABLE] false),
    [list_ports] returns the empty list and [connect] returns a failure
    for every port and baud rate, whatever the library would have
    answered; both return, the manager is unchanged, and a manager that
    was never connected stays disconnected. *)
Theorem degraded_without_serial lib mgr port baud :
  Serial.list_ports false lib mgr = [] /\
  snd (Serial.connect false lib mgr port baud) =
    (false, "Serial library not available") /\
  fst (Serial.connect false lib mgr port baud) = mgr /\
  Serial.connected (fst (Serial.connect false lib Serial.init port baud)) =
    false.
Proof. repeat split. Qed.
End CommandFacts.

(** * The stream parser on arbitrary byte streams: facts *)

Section StreamFacts.
Import Frame.
Local Open Scope Z_scope.

Lemma is_bytes_forallb data : forallb is_byte data = true <-> is_bytes data.
Proof. unfold is_bytes. rewrite forallb_forall, Forall_forall.
  split; intros H x Hx; apply H; now apply list_elem_of_In.
Qed.

Lemma pack_frame_raises cmd pl :
  is_byte cmd = false \/ 254 < Z.of_nat (List.length pl) ->
  pack_frame cmd pl = Raises ValueError.
Proof.
  intros H. unfold pack_frame, mk_bytes. cbn [forallb].
  destruct H as [Hc|Hl].
  - rewrite Hc. now rewrite andb_false_r.
  - replace (is_byte (1 + Z.of_nat (List.length pl))) with false
      by (symmetry; unfold is_byte; apply andb_false_iff; right;
          apply Z.ltb_ge; lia).
    reflexivity.
Qed.

Lemma pack_frame_returns cmd pl frame :
  pack_frame cmd pl = Returns frame ->
  is_byte cmd = true /\ (List.length pl <= 254)%nat /\ frame = wire cmd pl.
Proof.
  intros Hpack.
  destruct (is_byte cmd) eqn:Hc;
    [|rewrite pack_frame_raises in Hpack by auto; discriminate Hpack].
  destruct (Z.leb_spec (Z.of_nat (List.length pl)) 254) as [Hl|Hl];
    [|rewrite pack_frame_raises in Hpack by auto; discriminate Hpack].
  assert (Hl' : (List.length pl <= 254)%nat) by lia.
  rewrite pack_frame_wire in Hpack by assumption.
  injection Hpack as <-. auto.
Qed.

(** X1. [pack_frame] raises [ValueError] exactly when the command is outside
    [range(256)] or the payload is longer than 254 bytes; otherwise it
    returns start byte, length, command, payload, checksum and terminator,
    whatever the payload holds. *)
Theorem pack_frame_cases cmd pl :
  pack_frame cmd pl =
  if is_byte cmd && (Z.of_nat (List.length pl) <=? 254)
  then Returns ([0xAA; 1 + Z.of_nat (List.length pl); cmd] ++ pl
                  ++ [calc_cs ([1 + Z.of_nat (List.length pl); cmd] ++ pl);
                      0x55])
  else Raises ValueError.
Proof.
  destruct (is_byte cmd) eqn:Hc; cbn [andb].
  - destruct (Z.leb_spec (Z.of_nat (List.length pl)) 254) as [Hl|Hl].
    + rewrite pack_frame_wire by (assumption || lia). reflexivity.
    + apply pack_frame_raises. now right.
  - apply pack_frame_raises. now left.
Qed.

Lemma fold_lxor_byte data : forall acc,
  is_byte acc = true -> is_bytes data ->
  is_byte (fold_left Z.lxor data acc) = true.
Proof.
  induction data as [|b data IH]; intros acc Ha Hd; cbn [fold_left].
  - exact Ha.
  - inversion Hd; subst. apply IH; [now apply lxor_byte|assumption].
Qed.

Lemma calc_cs_fold data :
  is_bytes data -> calc_cs data = fold_left Z.lxor data 0.
Proof.
  intros Hd. unfold calc_cs.
  pose proof (fold_lxor_byte data 0 eq_refl Hd) as H.
  apply is_byte_range in H.
  change 0xFF with (Z.ones 8). rewrite Z.land_ones by lia.
  apply Z.mod_small. lia.
Qed.

Lemma calc_cs_cancel body :
  is_bytes body -> calc_cs (body ++ [calc_cs body]) = 0.
Proof.
  intros Hb. unfold calc_cs at 1. rewrite fold_left_app. cbn [fold_left].
  rewrite calc_cs_fold by assumption. now rewrite Z.lxor_nilpotent.
Qed.

Lemma wire_middle cmd pl :
  take (List.length (wire cmd pl) - 2) (drop 1 (wire cmd pl)) =
  ([1 + Z.of_nat (List.length pl); cmd] ++ pl)
    ++ [calc_cs ([1 + Z.of_nat (List.length pl); cmd] ++ pl)].
Proof.
  rewrite wire_length. unfold wire. cbn [app drop].
  replace (List.length pl + 5 - 2)%nat with (S (S (List.length pl + 1)))
    by lia.
  cbn [take]. do 2 f_equal.
  change [calc_cs (1 + Z.of_nat (List.length pl) :: cmd :: pl); EOF]
    with ([calc_cs (1 + Z.of_nat (List.length pl) :: cmd :: pl)] ++ [EOF]).
  rewrite app_assoc. apply take_app_length'.
  rewrite length_app. reflexivity.
Qed.

(** X2. The checksum closes the frame: in a frame packed from a payload of
    bytes, the XOR of everything between the start byte and the terminator
    (length, command, payload and checksum) is zero. *)
Theorem packed_frame_xor_zero cmd pl frame :
  is_bytes pl ->
  pack_frame cmd pl = Returns frame ->
  calc_cs (take (List.length frame - 2) (drop 1 frame)) = 0.
Proof.
  intros Hpl Hpack.
  destruct (pack_frame_returns _ _ _ Hpack) as (Hc & Hl & ->).
  rewrite wire_middle. apply calc_cs_cancel.
  constructor; [apply is_byte_range; lia|].
  constructor; assumption.
Qed.

Lemma packed_frame_xor_zero_witness :
  calc_cs (take (List.length [0xAA; 2; 3; 0x12; 0x13; 0x55] - 2)
             (drop 1 [0xAA; 2; 3; 0x12; 0x13; 0x55])) = 0.
Proof.
  apply (packed_frame_xor_zero 3 [0x12] [0xAA; 2; 3; 0x12; 0x13; 0x55]).
  - repeat constructor.
  - reflexivity.
Defined.

Lemma py_slice_from_two (l : list Z) (stop : Z) :
  (2 <= List.length l)%nat ->
  exists k, py_slice l 2 stop = take k (drop 2 l).
Proof.
  intros Hl. unfold py_slice, py_clamp. change (2 <? 0) with false.
  cbn iota. rewrite (Z.min_l 2) by lia. change (Z.to_nat 2) with 2%nat.
  eexists. reflexivity.
Qed.

Ltac bool_facts :=
  repeat match goal with
         | H : _ && _ = true |- _ => apply andb_true_iff in H as [? ?]
         | H : (_ <? _) = true |- _ => apply Z.ltb_lt in H
         | H : (_ <=? _) = true |- _ => apply Z.leb_le in H
         | H : (_ >=? _) = true |- _ => rewrite Z.geb_leb in H
         | H : (_ >=? _) = false |- _ => rewrite Z.geb_leb in H
         | H : (_ <=? _) = false |- _ => apply Z.leb_gt in H
         end.

(** One byte keeps the parser well formed, raises nothing, and returns
    either nothing or a frame that [pack_frame] accepts. *)
Lemma feed_ok p b :
  parser_ok p = true ->
  is_byte b = true ->
  parser_ok (fst (feed p b)) = true /\
  match snd (feed p b) with
  | Returns None => True
  | Returns (Some f) => frame_ok f = true
  | Raises _ => False
  end.
Proof.
  destruct p as [st bf ln ex pl]. unfold parser_ok, feed.
  cbn [state buf length expected_payload payload set_state set_buf
       set_length set_expected_payload set_payload].
  intros Hok Hb. apply andb_true_iff in Hok as [Hbuf Hst].
  destruct (st =? 0) eqn:E0.
  { destruct (b =? SOF); cbn; [easy|]. rewrite Hbuf, E0. easy. }
  destruct (st =? 1) eqn:E1.
  { rewrite Hb. cbn. now rewrite Hb. }
  destruct (st =? 2) eqn:E2.
  { rewrite Hb. bool_facts.
    destruct (ln =? 1) eqn:El; cbn [fst snd set_state set_buf
      set_expected_payload set_payload state buf length expected_payload
      payload]; (split; [|exact I]); rewrite forallb_app, Hbuf; cbn [forallb];
      rewrite Hb; cbn [andb Z.eqb Pos.eqb orb List.length forallb];
      rewrite length_app; cbn [List.length];
      apply is_byte_range in H0; apply Z.eqb_eq in H;
      try apply Z.eqb_neq in El;
      repeat (apply andb_true_iff; split);
      try apply Z.eqb_eq; try apply Z.leb_le; try apply Z.ltb_lt;
      try reflexivity; lia. }
  destruct (st =? 21) eqn:E21.
  { rewrite Hb. bool_facts. apply Z.eqb_eq in H.
    rewrite length_app. cbn [List.length].
    destruct (Z.of_nat (List.length pl + 1) >=? ex) eqn:Ege;
      cbn [fst snd set_state set_buf set_payload state buf length
           expected_payload payload]; (split; [|exact I]);
      rewrite Z.geb_leb in Ege.
    - apply Z.leb_le in Ege. rewrite !forallb_app, Hbuf, H2. cbn [forallb].
      rewrite Hb. cbn [andb Z.eqb Pos.eqb orb].
      rewrite !length_app. cbn [List.length].
      apply andb_true_iff; split; [apply Z.leb_le|apply Z.leb_le]; lia.
    - apply Z.leb_gt in Ege. rewrite Hbuf, E0, E1, E2, E21.
      rewrite forallb_app, H2. cbn [forallb]. rewrite Hb. cbn [andb].
      rewrite length_app. cbn [List.length].
      repeat (apply andb_true_iff; split);
        try apply Z.eqb_eq; try apply Z.leb_le; try apply Z.ltb_lt; lia. }
  destruct (st =? 3) eqn:E3.
  { cbn [orb] in Hst. cbn [buf set_state].
    destruct (negb (calc_cs bf =? b));
      cbn [fst snd set_state state buf]; (split; [|exact I]);
      rewrite Hbuf; cbn [andb Z.eqb Pos.eqb orb]; [reflexivity|exact Hst]. }
  destruct (st =? 4) eqn:E4; [|discriminate Hst].
  cbn [orb] in Hst. bool_facts. cbn [buf set_state].
  destruct (b =? EOF).
  - destruct bf as [|l [|c rest]]; cbn [List.length] in *; try lia.
    cbn [lookup list_lookup fst snd set_state state buf].
    rewrite Hbuf. cbn [andb Z.eqb Pos.eqb]. split; [reflexivity|].
    unfold frame_ok. cbn [fst snd].
    destruct (py_slice_from_two (l :: c :: rest) (2 + (l - 1))) as [k ->];
      [cbn [List.length]; lia|].
    change (drop 2 (l :: c :: rest)) with rest.
    cbn [forallb] in Hbuf. bool_facts.
    apply andb_true_iff; split; [apply andb_true_iff; split|].
    + assumption.
    + apply is_bytes_forallb, Forall_take. now apply is_bytes_forallb.
    + apply Z.leb_le. rewrite length_take.
      pose proof (Nat.le_min_r k (List.length rest)). lia.
  - cbn [fst snd set_state state buf]. rewrite Hbuf. easy.
Qed.

Lemma feed_all_ok data : forall p,
  parser_ok p = true ->
  is_bytes data ->
  parser_ok (fst (feed_all p data)) = true /\
  all_return (snd (feed_all p data)) = true /\
  forallb frame_ok (decoded (snd (feed_all p data))) = true.
Proof.
  induction data as [|b data IH]; intros p Hp Hd; [now cbn|].
  inversion Hd as [|? ? Hb Hd']; subst.
  destruct (feed_ok p b Hp Hb) as [Hp' Hr].
  destruct (IH _ Hp' Hd') as (IH1 & IH2 & IH3).
  rewrite feed_all_cons. cbn [fst snd].
  split; [exact IH1|].
  destruct (snd (feed p b)) as [[f|]|e]; cbn [all_return forallb decoded];
    [|now split|contradiction].
  fold (all_return (snd (feed_all (feed p b).1 data))).
  rewrite IH2, Hr, IH3. now split.
Qed.

(** X3. A parser that has only seen bytes since [__init__] raises on no
    byte: neither the [ValueError] of [bytearray.append] nor the
    [IndexError] of [self.buf[0]] and [self.buf[1]] can occur, whatever the
    stream holds. *)
Theorem feed_bytes_never_raises data :
  is_bytes data ->
  all_return (snd (feed_all Frame.init data)) = true.
Proof.
  intros Hd. now destruct (feed_all_ok data Frame.init eq_refl Hd) as (_ & H & _).
Qed.

Lemma feed_bytes_never_raises_witness :
  all_return (snd (feed_all Frame.init [0xAA; 0xAA; 0x55; 0; 0xAA; 0x55; 0x55]))
  = true.
Proof.
  apply (feed_bytes_never_raises [0xAA; 0xAA; 0x55; 0; 0xAA; 0x55; 0x55]).
  repeat constructor.
Defined.

(** X4. Whatever bytes arrive, every frame the parser returns has a command
    byte and a payload of at most 254 bytes, so [pack_frame] accepts it:
    noise on the line cannot produce an oversized frame. *)
Theorem decoded_frames_are_packable data :
  is_bytes data ->
  forallb frame_ok (decoded (snd (feed_all Frame.init data))) = true /\
  Forall (fun f => exists frame, pack_frame (fst f) (snd f) = Returns frame)
    (decoded (snd (feed_all Frame.init data))).
Proof.
  intros Hd.
  destruct (feed_all_ok data Frame.init eq_refl Hd) as (_ & _ & H).
  split; [exact H|].
  apply Forall_forall. intros [cmd pl] Hin.
  rewrite forallb_forall in H. apply list_elem_of_In in Hin.
  specialize (H _ Hin). unfold frame_ok in H. cbn [fst snd] in *.
  apply andb_true_iff in H as [H Hl]. apply andb_true_iff in H as [Hc _].
  apply Z.leb_le in Hl. exists (wire cmd pl).
  apply pack_frame_wire; [exact Hc|lia].
Qed.

Lemma decoded_frames_are_packable_witness :
  let data := [0x55; 0xAA; 0x00; 7; 9; 14; 0x55; 0xAA; 2; 3; 0x12; 0x13; 0x55] in
  forallb frame_ok (decoded (snd (feed_all Frame.init data))) = true /\
  Forall (fun f => exists frame, pack_frame (fst f) (snd f) = Returns frame)
    (decoded (snd (feed_all Frame.init data))).
Proof.
  intros data. apply (decoded_frames_are_packable data). repeat constructor.
Defined.

Lemma feed_all_noise noise : forall p,
  state p = 0 ->
  Forall (fun b => b <> SOF) noise ->
  feed_all p noise = (p, replicate (List.length noise) (Returns None)).
Proof.
  induction noise as [|b noise IH]; intros p Hst Hn; [reflexivity|].
  inversion Hn as [|? ? Hb Hn']; subst.
  destruct p as [st bf ln ex pl]. cbn [state] in Hst. subst st.
  rewrite feed_all_cons, feed_searching.
  apply Z.eqb_neq in Hb. rewrite Hb. cbn [fst snd].
  rewrite IH by (reflexivity || assumption). reflexivity.
Qed.

(** X5. While it searches, the parser skips every byte that is not the
    start byte: noise without [0xAA] in front of a packed frame, even bytes
    equal to the terminator, does not keep the frame from being returned,
    alone and on its last byte. *)
Theorem leading_noise_is_skipped noise cmd pl frame :
  Forall (fun b => b <> 0xAA) noise ->
  is_bytes pl ->
  pack_frame cmd pl = Returns frame ->
  snd (feed_all Frame.init (noise ++ frame)) =
    replicate (List.length noise + List.length frame - 1) (Returns None)
      ++ [Returns (Some (cmd, pl))].
Proof.
  intros Hn Hpl Hpack.
  destruct (pack_frame_returns _ _ _ Hpack) as (Hc & Hl & ->).
  rewrite feed_all_app, (feed_all_noise noise Frame.init eq_refl Hn).
  cbn [fst snd].
  destruct (feed_frame Frame.init cmd pl eq_refl Hc Hpl Hl) as [Hrs _].
  rewrite Hrs, app_assoc, <- replicate_add, wire_length.
  do 2 f_equal. lia.
Qed.

Lemma leading_noise_is_skipped_witness :
  snd (feed_all Frame.init ([0x55; 0; 0x55; 0xFF] ++ [0xAA; 2; 3; 0x12; 0x13; 0x55])) =
    replicate (4 + 6 - 1) (Returns None) ++ [Returns (Some (3, [0x12]))].
Proof.
  apply (leading_noise_is_skipped [0x55; 0; 0x55; 0xFF] 3 [0x12]
           [0xAA; 2; 3; 0x12; 0x13; 0x55]).
  - repeat constructor; discriminate.
  - repeat constructor.
  - reflexivity.
Defined.

Lemma frame_ok_parts cmd pl :
  frame_ok (cmd, pl) = true ->
  is_byte cmd = true /\ is_bytes pl /\ (List.length pl <= 254)%nat.
Proof.
  unfold frame_ok. cbn [fst snd]. intros H.
  apply andb_true_iff in H as [H Hl]. apply andb_true_iff in H as [Hc Hb].
  apply Z.leb_le in Hl. apply is_bytes_forallb in Hb.
  repeat split; [assumption..|lia].
Qed.

Lemma feed_stream frames : forall p,
  state p = 0 ->
  forallb frame_ok frames = true ->
  exists stream,
    pack_stream frames = Returns stream /\
    decoded (snd (feed_all p stream)) = frames /\
    state (fst (feed_all p stream)) = 0.
Proof.
  induction frames as [|[cmd pl] frames IH]; intros p Hst Hok.
  - exists []. now cbn.
  - cbn [forallb] in Hok. apply andb_true_iff in Hok as [Hf Hok].
    destruct (frame_ok_parts _ _ Hf) as (Hc & Hb & Hl).
    destruct (feed_frame p cmd pl Hst Hc Hb Hl) as [Hrs Hst'].
    destruct (IH _ Hst' Hok) as (rest & Hpack & Hdec & Hend).
    exists (wire cmd pl ++ rest). cbn [pack_stream].
    rewrite pack_frame_wire, Hpack by assumption. cbn [bind].
    split; [reflexivity|].
    rewrite feed_all_app. cbn [fst snd].
    rewrite decoded_app, Hrs, decoded_silent, Hdec. now split.
Qed.

(** X6. Frames sent back to back come out in order: packing a list of
    frames one after the other and feeding the bytes to a fresh parser
    returns exactly that list, with nothing lost and nothing added. *)
Theorem back_to_back_frames frames :
  forallb frame_ok frames = true ->
  exists stream,
    pack_stream frames = Returns stream /\
    decoded (snd (feed_all Frame.init stream)) = frames.
Proof.
  intros Hok.
  destruct (feed_stream frames Frame.init eq_refl Hok) as (s & H1 & H2 & _).
  now exists s.
Qed.

Lemma back_to_back_frames_witness :
  exists stream,
    pack_stream [(1, [7]); (2, []); (3, [0x12])] = Returns stream /\
    decoded (snd (feed_all Frame.init stream)) = [(1, [7]); (2, []); (3, [0x12])].
Proof.
  apply (back_to_back_frames [(1, [7]); (2, []); (3, [0x12])]). reflexivity.
Defined.

Lemma corrupt_terminator_wire cmd pl bad :
  corrupt_terminator (wire cmd pl) bad =
  ([SOF; 1 + Z.of_nat (List.length pl); cmd] ++ pl)
    ++ [calc_cs ([1 + Z.of_nat (List.length pl); cmd] ++ pl); bad].
Proof.
  unfold corrupt_terminator. rewrite wire_length, wire_split.
  rewrite insert_app_r_alt by (rewrite length_app; simpl; lia).
  f_equal. rewrite length_app. simpl List.length.
  replace (_ - _)%nat with 1%nat by lia. reflexivity.
Qed.

(** X7. A wrong terminator drops the frame and nothing else: a packed frame
    whose last byte was replaced by anything but [0x55], followed at once by
    a second packed frame, makes a fresh parser return the second frame
    only, on the last byte. *)
Theorem resync_after_bad_terminator cmd1 pl1 cmd2 pl2 f1 f2 bad :
  is_bytes pl1 -> is_bytes pl2 ->
  pack_frame cmd1 pl1 = Returns f1 ->
  pack_frame cmd2 pl2 = Returns f2 ->
  bad <> 0x55 ->
  snd (feed_all Frame.init (corrupt_terminator f1 bad ++ f2)) =
    replicate (List.length f1 + List.length f2 - 1) (Returns None)
      ++ [Returns (Some (cmd2, pl2))].
Proof.
  intros Hb1 Hb2 Hf1 Hf2 Hbad.
  destruct (pack_frame_returns _ _ _ Hf1) as (Hc1 & Hl1 & ->).
  destruct (pack_frame_returns _ _ _ Hf2) as (Hc2 & Hl2 & ->).
  rewrite corrupt_terminator_wire, feed_all_app.
  destruct (feed_body Frame.init cmd1 pl1 eq_refl Hc1 Hb1 Hl1)
    as (ex & pl' & Hbody).
  rewrite (feed_all_app Frame.init), Hbody. cbn [fst snd].
  rewrite !feed_all_cons, feed_checksum, Z.eqb_refl. cbn [fst snd].
  rewrite feed_terminator_wrong by exact Hbad. cbn [fst snd feed_all].
  destruct (feed_frame (mkFrameParser 0
              ([1 + Z.of_nat (List.length pl1); cmd1] ++ pl1)
              (1 + Z.of_nat (List.length pl1)) ex pl') cmd2 pl2
              eq_refl Hc2 Hb2 Hl2) as [Hrs _].
  rewrite Hrs, !wire_length.
  change [Returns None; Returns None]
    with (replicate 2 (@Returns (option frame) None)).
  rewrite !app_assoc, <- !replicate_add. do 2 f_equal. lia.
Qed.

Lemma resync_after_bad_terminator_witness :
  snd (feed_all Frame.init
         (corrupt_terminator [0xAA; 2; 1; 7; 4; 0x55] 0xAA
            ++ [0xAA; 2; 3; 0x12; 0x13; 0x55])) =
    replicate (6 + 6 - 1) (Returns None) ++ [Returns (Some (3, [0x12]))].
Proof.
  apply (resync_after_bad_terminator 1 [7] 3 [0x12]
           [0xAA; 2; 1; 7; 4; 0x55] [0xAA; 2; 3; 0x12; 0x13; 0x55] 0xAA).
  - repeat constructor.
  - repeat constructor.
  - reflexivity.
  - reflexivity.
  - discriminate.
Defined.
End StreamFacts.

(** * The serial manager: facts *)

Section ManagerFacts.
Import Frame Serial.
Local Open Scope string_scope.

(** X8. [send_command] succeeds exactly when the manager is connected to an
    open port that accepts the write and [pack_frame] accepts command and
    payload; it then writes that one frame, and in every other case it
    writes nothing.  It never changes the connection flag. *)
Theorem send_command_cases m cmd pl :
  let ok := manager_ready m && is_byte cmd
            && (Z.of_nat (List.length pl) <=? 254)%Z in
  let r := send_command m cmd pl in
  fst (snd r) = ok /\
  manager_sent (fst r) =
    (manager_sent m ++ if ok then [wire cmd pl] else [])%list /\
  connected (fst r) = connected m.
Proof.
  intros ok r. subst ok r. unfold send_command, manager_ready, manager_sent.
  destruct m as [[[dev baud opn wr flt]|] rx stop prs conn];
    cbn [ser connected]; destruct conn; cbn [andb fst snd ser connected];
    rewrite ?app_nil_r; auto.
  unfold port_ready, port_write. cbn [is_open fault written].
  destruct (is_byte cmd) eqn:Hc;
    [|rewrite pack_frame_raises by auto; cbn [bind fst snd ser connected];
      rewrite !andb_false_r, app_nil_r; auto].
  destruct (Z.leb_spec (Z.of_nat (List.length pl)) 254) as [Hl|Hl];
    [|rewrite pack_frame_raises by auto; cbn [bind fst snd ser connected];
      rewrite !andb_false_r, app_nil_r; auto].
  rewrite pack_frame_wire by (assumption || lia).
  destruct opn, flt as [msg|];
    cbn [andb negb bind fst snd ser connected written];
    rewrite ?app_nil_r; auto.
Qed.


(** X11. A failed reconnect loses the old connection: when the manager
    holds an open port and [serial.Serial] raises for the new one, [connect]
    answers failure, and the old port has been closed and the manager is
    disconnected. *)
Theorem failed_reconnect_disconnects lib m p port baud e :
  ser m = Some p ->
  is_open p = true ->
  Serial lib port baud = Raises e ->
  let r := connect true lib m port baud in
  fst (snd r) = false /\
  connected (fst r) = false /\
  ser (fst r) = Some (port_close p) /\
  manager_ready (fst r) = false.
Proof.
  intros Hser Hopen Hraise r. subst r. unfold connect. cbn [negb].
  rewrite Hser, Hopen. unfold disconnect. rewrite Hser, Hopen. cbn [fst].
  rewrite Hraise. cbn [fst snd ser connected]. repeat split.
Qed.

Lemma failed_reconnect_disconnects_witness :
  let lib := mkSerialLib (Returns ["COM3"])
               (fun _ _ => Raises (SerialException "could not open port")) in
  let p := mkPort "COM3" 115200 true [] None in
  let m := mkSerialManager (Some p) true false Frame.init true in
  let r := connect true lib m "COM4" 9600 in
  fst (snd r) = false /\
  connected (fst r) = false /\
  ser (fst r) = Some (port_close p) /\
  manager_ready (fst r) = false.
Proof.
  intros lib p m.
  apply (failed_reconnect_disconnects lib m p "COM4" 9600
           (SerialException "could not open port")); reflexivity.
Defined.

(** X12. Connect, then send: when the library opens the port, [connect]
    answers success and leaves the manager connected, with the stop flag
    cleared and the parser as it was; a command byte and a payload of at
    most 254 bytes sent next are written to that port as one packed
    frame. *)
Theorem connect_then_send lib m p port baud cmd pl :
  Serial lib port baud = Returns p ->
  port_ready p = true ->
  is_byte cmd = true ->
  (List.length pl <= 254)%nat ->
  let m1 := fst (connect true lib m port baud) in
  let r := send_command m1 cmd pl in
  snd (connect true lib m port baud) = (true, "Connected to " ++ port) /\
  connected m1 = true /\ stop_flag m1 = false /\ parser m1 = parser m /\
  fst (snd r) = true /\
  manager_sent (fst r) = (written p ++ [wire cmd pl])%list.
Proof.
  intros Hopen Hready Hc Hl m1 r.
  assert (Hm1 : connect true lib m port baud =
                (mkSerialManager (Some p) true false (parser m) true,
                 (true, "Connected to " ++ port))).
  { unfold connect. cbn [negb].
    destruct (ser m) as [q|]; [destruct (is_open q)|];
      cbn [fst disconnect parser]; now rewrite Hopen. }
  subst r m1. rewrite Hm1. cbn [fst snd connected stop_flag parser].
  unfold port_ready in Hready. apply andb_true_iff in Hready as [Ho Hf].
  destruct p as [dev bd opn wr flt]. cbn [is_open fault] in Ho, Hf.
  subst opn. destruct flt; [discriminate Hf|].
  unfold send_command, manager_sent. cbn [connected ser].
  rewrite pack_frame_wire by assumption. cbn [bind port_write is_open negb
    fault written fst snd ser].
  repeat split.
Qed.

Lemma connect_then_send_witness :
  let p := mkPort "COM3" 115200 true [] None in
  let lib := mkSerialLib (Returns ["COM3"]) (fun _ _ => Returns p) in
  let m1 := fst (connect true lib Serial.init "COM3" 115200) in
  let r := send_command m1 3 [0x12]%Z in
  snd (connect true lib Serial.init "COM3" 115200)
    = (true, "Connected to " ++ "COM3") /\
  connected m1 = true /\ stop_flag m1 = false /\
  parser m1 = parser Serial.init /\
  fst (snd r) = true /\
  manager_sent (fst r) = (written p ++ [wire 3 [0x12]%Z])%list.
Proof.
  intros p lib.
  apply (connect_then_send lib Serial.init p "COM3" 115200 3 [0x12]%Z);
    try reflexivity.
  simpl. lia.
Defined.
End ManagerFacts.

(** * Event log and control pass: facts *)

Section LogFacts.
Import Env.
Local Open Scope string_scope.

Lemma add_event_events now ty msg lvl e :
  (List.length (events e) <= 100)%nat ->
  events (add_event now ty msg lvl e) =
  keep_last 100 (events e ++ [mkEvent now ty msg lvl])%list.
Proof.
  intros Hlen. unfold add_event, keep_last. destruct e as [d ds th ev us dm sm].
  cbn [events set_events] in *. rewrite length_app. cbn [List.length].
  destruct (Z.gtb_spec (Z.of_nat (List.length ev + 1)) 100) as [Hgt|Hle].
  - replace (List.length ev + 1 - 100)%nat with 1%nat by lia. reflexivity.
  - replace (List.length ev + 1 - 100)%nat with 0%nat by lia. reflexivity.
Qed.

Lemma keep_last_length {A : Type} (n : nat) (l : list A) :
  List.length (keep_last n l) = Nat.min (List.length l) n.
Proof. unfold keep_last. rewrite length_drop. lia. Qed.

(** X13. The event log is a ring of 100 entries: on a log of at most 100
    entries [add_event] keeps the last 100 of the old entries followed by
    the new one, so the new entry is always the last, the length grows by
    one up to 100 and then stays, and at capacity the oldest entry goes. *)
Theorem add_event_ring now ty msg lvl e :
  (List.length (events e) <= 100)%nat ->
  let ev := mkEvent now ty msg lvl in
  let log := events (add_event now ty msg lvl e) in
  log = keep_last 100 (events e ++ [ev])%list /\
  List.length log = Nat.min (S (List.length (events e))) 100 /\
  last log = Some ev /\
  (List.length (events e) = 100%nat -> log = (drop 1 (events e) ++ [ev])%list).
Proof.
  intros Hlen ev log. subst log. rewrite add_event_events by assumption.
  fold ev. split; [reflexivity|]. split; [|split].
  - rewrite keep_last_length, length_app. cbn [List.length]. lia.
  - unfold keep_last. rewrite length_app. cbn [List.length].
    rewrite drop_app_le by lia. apply last_snoc.
  - intros Hfull. unfold keep_last. rewrite length_app. cbn [List.length].
    rewrite Hfull. cbn [Nat.add Nat.sub]. rewrite drop_app_le by lia.
    reflexivity.
Qed.

Lemma add_event_ring_witness :
  let e := set_events (replicate 100 (mkEvent "07:59:59" "SYSTEM" "x" "INFO"))
             Env.init in
  let ev := mkEvent "08:00:00" "MANUAL" "y" "INFO" in
  let log := events (add_event "08:00:00" "MANUAL" "y" "INFO" e) in
  log = keep_last 100 (events e ++ [ev])%list /\
  List.length log = Nat.min (S (List.length (events e))) 100 /\
  last log = Some ev /\
  (List.length (events e) = 100%nat -> log = (drop 1 (events e) ++ [ev])%list).
Proof.
  intros e.
  apply (add_event_ring "08:00:00" "MANUAL" "y" "INFO" e).
  cbn. lia.
Defined.

Lemma keep_last_app {A : Type} (n : nat) (l k : list A) :
  keep_last n (keep_last n l ++ k) = keep_last n (l ++ k).
Proof.
  unfold keep_last. rewrite !length_app, length_drop.
  destruct (Nat.le_gt_cases (List.length l) n) as [Hle|Hgt].
  - replace (List.length l - n)%nat with 0%nat by lia. cbn [drop].
    f_equal. lia.
  - replace (List.length l - (List.length l - n) + List.length k - n)%nat
      with (List.length k) by lia.
    replace (List.length l + List.length k - n)%nat
      with ((List.length l - n) + List.length k)%nat by lia.
    rewrite <- drop_drop. f_equal.
    rewrite drop_app_le by lia. reflexivity.
Qed.

Lemma log_changes_events clock changes : forall i e,
  (List.length (events e) <= 100)%nat ->
  events (log_changes clock i changes e) =
  keep_last 100 (events e ++ device_events clock i changes)%list.
Proof.
  induction changes as [|ch changes IH]; intros i e Hlen;
    cbn [log_changes device_events].
  - rewrite app_nil_r. unfold keep_last.
    now replace (List.length (events e) - 100)%nat with 0%nat by lia.
  - rewrite IH.
    + rewrite add_event_events by assumption.
      rewrite keep_last_app, <- app_assoc. reflexivity.
    + rewrite add_event_events, keep_last_length by assumption. lia.
Qed.

Ltac compare_as_bools d th :=
  unfold control, control_co2, control_humidity, control_temperature;
  generalize (PrimFloat.ltb (temperature d) (min (th_temperature th)));
  generalize (PrimFloat.ltb (max (th_temperature th)) (temperature d));
  generalize (PrimFloat.ltb (humidity d) (min (th_humidity th)));
  generalize (PrimFloat.ltb (max (th_humidity th)) (humidity d));
  generalize (PrimFloat.ltb (th_co2_max th) (co2 d));
  intros co2_hi hum_hi hum_lo temp_hi temp_lo.

Lemma control_no_flip d th ds :
  fst (control d th ds) = ds -> snd (control d th ds) = [].
Proof.
  compare_as_bools d th. destruct ds as [h c hu de v cv].
  destruct temp_lo, temp_hi, hum_lo, hum_hi, co2_hi, h, c, hu, de, v;
    intros H; (reflexivity || discriminate H).
Qed.

Lemma control_at_most_five d th ds :
  (List.length (snd (control d th ds)) <=? 5)%nat = true.
Proof.
  compare_as_bools d th. destruct ds as [h c hu de v cv].
  destruct temp_lo, temp_hi, hum_lo, hum_hi, co2_hi, h, c, hu, de, v;
    reflexivity.
Qed.

Lemma control_target d th ds :
  exclusive ds -> fst (control d th ds) = target_flags d th ds.
Proof.
  unfold exclusive, target_flags. compare_as_bools d th.
  destruct ds as [h c hu de v cv].
  cbn [heating cooling humidify dehumidify close_vent]. intros [H1 H2].
  destruct h, c; try discriminate H1; destruct hu, de; try discriminate H2;
    destruct temp_lo, temp_hi, hum_lo, hum_hi, co2_hi, v; reflexivity.
Qed.

(** X14. Events mark transitions only: a call of [auto_control] leaves the
    whole state (flags, log, sample, thresholds) untouched exactly when it
    flips no device flag. *)
Theorem auto_control_noop_iff clock e :
  auto_control clock e = e <->
  device_states (auto_control clock e) = device_states e.
Proof.
  split; [now intros ->|].
  rewrite auto_control_devices. intros Hds.
  rewrite auto_control_unfold, (control_no_flip _ _ _ Hds), Hds.
  cbn [log_changes]. now destruct e.
Qed.

(** X15. The control pass has no memory on consistent flags: when heating
    and cooling are not both on and humidify and dehumidify are not both
    on, the flags after [auto_control] are a function of the sample and the
    thresholds alone (heating below the minimum, cooling above the maximum,
    ventilation above the CO2 maximum, all others off), [close_vent]
    apart. *)
Theorem auto_control_reaches_target clock e :
  heating (device_states e) && cooling (device_states e) = false ->
  humidify (device_states e) && dehumidify (device_states e) = false ->
  device_states (auto_control clock e) =
  target_flags (data e) (thresholds e) (device_states e).
Proof.
  intros H1 H2. rewrite auto_control_devices. apply control_target.
  now split.
Qed.

Lemma auto_control_reaches_target_witness :
  let e := set_data (mkData 18 80 nan 300 0 None)
             (set_device_states
                (mkDeviceStates false true true false true true) Env.init) in
  device_states (auto_control (fun _ => "08:00:00") e) =
  target_flags (data e) (thresholds e) (device_states e).
Proof.
  intros e. apply (auto_control_reaches_target (fun _ => "08:00:00") e);
    reflexivity.
Defined.

Lemma auto_control_events clock e :
  (List.length (events e) <= 100)%nat ->
  events (auto_control clock e) =
  keep_last 100
    (events e ++ device_events clock 0
                   (snd (control (data e) (thresholds e) (device_states e))))%list.
Proof.
  intros Hlen. rewrite auto_control_unfold, log_changes_events; [reflexivity|].
  now destruct e.
Qed.

Lemma auto_control_bounded clock e :
  (List.length (events e) <= 100)%nat ->
  (List.length (events (auto_control clock e)) <= 100)%nat.
Proof.
  intros Hlen. rewrite auto_control_events, keep_last_length by assumption.
  lia.
Qed.

(** X16. What a control pass logs: on a log of at most 100 entries,
    [auto_control] appends at most five entries, all of type DEVICE and
    level INFO, one per change in the order temperature, humidity, CO2, and
    the log is the last 100 entries of the old log followed by them. *)
Theorem auto_control_log clock e :
  (List.length (events e) <= 100)%nat ->
  let changes := snd (control (data e) (thresholds e) (device_states e)) in
  (List.length changes <= 5)%nat /\
  events (auto_control clock e) =
    keep_last 100 (events e ++ device_events clock 0 changes)%list /\
  (List.length (events (auto_control clock e)) <= 100)%nat.
Proof.
  intros Hlen changes.
  split; [apply Nat.leb_le, control_at_most_five|].
  split; [now apply auto_control_events|now apply auto_control_bounded].
Qed.

Lemma auto_control_log_witness :
  let e := set_data (mkData 18 80 2000 300 0 None) Env.init in
  let clock := fun i : nat => if Nat.eqb i 0 then "08:00:00" else "08:00:01" in
  let changes := snd (control (data e) (thresholds e) (device_states e)) in
  (List.length changes <= 5)%nat /\
  events (auto_control clock e) =
    keep_last 100 (events e ++ device_events clock 0 changes)%list /\
  (List.length (events (auto_control clock e)) <= 100)%nat.
Proof.
  intros e clock. apply (auto_control_log clock e). cbn. lia.
Defined.
End LogFacts.

(** * Invariants of the environment state: facts *)

Section StateFacts.
Import Env.
Local Open Scope string_scope.

Lemma add_event_bounded now ty msg lvl e :
  (List.length (events e) <= 100)%nat ->
  (List.length (events (add_event now ty msg lvl e)) <= 100)%nat.
Proof.
  intros H. rewrite add_event_events, keep_last_length by assumption. lia.
Qed.

Lemma add_event_modes now ty msg lvl e :
  use_simulation (add_event now ty msg lvl e) = use_simulation e /\
  data_mode (add_event now ty msg lvl e) = data_mode e.
Proof. now destruct e. Qed.

Lemma add_event_manager now ty msg lvl e :
  serial_manager (add_event now ty msg lvl e) = serial_manager e.
Proof. now destruct e. Qed.

(** What [on_serial_data] leaves alone: thresholds, mode and serial
    manager. *)
Lemma on_serial_data_keeps now cmd payload e :
  thresholds (on_serial_data now cmd payload e) = thresholds e /\
  use_simulation (on_serial_data now cmd payload e) = use_simulation e /\
  data_mode (on_serial_data now cmd payload e) = data_mode e /\
  serial_manager (on_serial_data now cmd payload e) = serial_manager e.
Proof.
  unfold on_serial_data.
  destruct (cmd =? 1)%Z.
  - destruct (Z.of_nat (List.length payload) >=? 20)%Z; [|auto].
    destruct (unpack_5f _) as [[[[[v0 v1] v2] v3] v4]|err]; now destruct e.
  - destruct (cmd =? 2)%Z; [|auto].
    destruct payload; [auto|]. now destruct e.
Qed.

Lemma on_serial_data_bounded now cmd payload e :
  (List.length (events e) <= 100)%nat ->
  (List.length (events (on_serial_data now cmd payload e)) <= 100)%nat.
Proof.
  intros H. unfold on_serial_data.
  destruct (cmd =? 1)%Z.
  - destruct (Z.of_nat (List.length payload) >=? 20)%Z; [|exact H].
    destruct (unpack_5f _) as [[[[[v0 v1] v2] v3] v4]|err];
      apply add_event_bounded; now destruct e.
  - destruct (cmd =? 2)%Z; [|exact H].
    destruct payload; [exact H|]. apply add_event_bounded. now destruct e.
Qed.

Lemma rx_bytes_bounded clock data : forall i e,
  (List.length (events e) <= 100)%nat ->
  (List.length (events (fst (rx_bytes clock i data e))) <= 100)%nat.
Proof.
  induction data as [|b data IH]; intros i e H; cbn [rx_bytes]; [exact H|].
  destruct (Frame.feed _ b) as [p [[[cmd pl]|]|err]].
  - apply IH, on_serial_data_bounded. now destruct e.
  - apply IH. now destruct e.
  - now destruct e.
Qed.

Lemma perform_bounded op e :
  (List.length (events e) <= 100)%nat ->
  (List.length (events (perform op e)) <= 100)%nat.
Proof.
  intros H. destruct op; cbn [perform].
  - now destruct e.
  - now apply auto_control_bounded.
  - now apply on_serial_data_bounded.
  - now apply rx_bytes_bounded.
  - unfold Web.control_device.
    destruct (get device (device_states e)); [|exact H]. cbn [fst].
    destruct (negb _); [apply add_event_bounded|]; now destruct e.
  - unfold send_device_command.
    destruct (negb _); [exact H|].
    destruct (lookup_key device device_map); [|exact H].
    destruct (mk_bytes _); [|exact H].
    destruct (Serial.send_command _ _ _) as [mgr [[] msg]]; cbn [fst];
      [apply add_event_bounded|]; now destruct e.
  - unfold set_data_mode.
    destruct (_ || _); [|exact H].
    destruct (negb _); cbn [fst]; [|now destruct e].
    destruct (_ && _); repeat apply add_event_bounded; now destruct e.
  - unfold Web.update_threshold.
    destruct (Web.store_threshold _ _ _ _); [|exact H]. cbn [fst].
    apply add_event_bounded. now destruct e.
  - unfold Web.connect_serial.
    destruct (Serial.connect _ _ _ _ _) as [mgr [[] msg]]; cbn [fst];
      [|now destruct e].
    apply add_event_bounded. destruct (String.eqb _ _); now destruct e.
  - unfold Web.disconnect_serial.
    destruct (Serial.disconnect _) as [mgr [[] msg]]; cbn [fst];
      [|now destruct e].
    apply add_event_bounded.
    destruct (String.eqb _ _); [apply add_event_bounded|]; now destruct e.
Qed.

(** X17. The event log never outgrows its capacity: after any sequence of
    samples, control passes, frames, received bytes and route requests on a
    fresh [EnvironmentData], the log holds at most 100 entries. *)
Theorem event_log_within_capacity ops :
  (List.length (events (perform_all ops Env.init)) <= 100)%nat.
Proof.
  unfold perform_all.
  assert (H : (List.length (events Env.init) <= 100)%nat) by (cbn; lia).
  revert H. generalize Env.init.
  induction ops as [|op ops IH]; intros e H; cbn [fold_left]; [exact H|].
  apply IH, perform_bounded, H.
Qed.
End StateFacts.

(** * The receive loop: facts *)

Section ReceiveFacts.
Import Frame Env.
Local Open Scope string_scope.

Lemma with_parser_same e :
  with_parser (Serial.parser (serial_manager e)) e = e.
Proof. now destruct e as [d ds th ev us dm [sr rx st pr cn]]. Qed.

Lemma with_parser_twice p q e : with_parser p (with_parser q e) = with_parser p e.
Proof. now destruct e as [d ds th ev us dm [sr rx st pr cn]]. Qed.

Lemma on_serial_data_with_parser now cmd payload p e :
  on_serial_data now cmd payload (with_parser p e) =
  with_parser p (on_serial_data now cmd payload e).
Proof.
  unfold on_serial_data.
  destruct (cmd =? 1)%Z.
  - destruct (Z.of_nat (List.length payload) >=? 20)%Z; [|reflexivity].
    destruct (unpack_5f _) as [[[[[v0 v1] v2] v3] v4]|err];
      now destruct e as [d ds th ev us dm [sr rx st pr cn]].
  - destruct (cmd =? 2)%Z; [|reflexivity].
    destruct payload; [reflexivity|].
    now destruct e as [d ds th ev us dm [sr rx st pr cn]].
Qed.

Lemma rx_bytes_cons clock i b rest e :
  rx_bytes clock i (b :: rest) e =
  let r := feed (Serial.parser (serial_manager e)) b in
  match snd r with
  | Raises _ => (with_parser (fst r) e, false)
  | Returns None => rx_bytes clock (S i) rest (with_parser (fst r) e)
  | Returns (Some (cmd, payload)) =>
      rx_bytes clock (S i) rest
        (on_serial_data (clock i) cmd payload (with_parser (fst r) e))
  end.
Proof.
  cbn [rx_bytes]. now destruct (feed _ b) as [p [[[cmd pl]|]|err]].
Qed.

(** As long as the parser returns nothing, the loop only moves the
    parser. *)
Lemma rx_bytes_silent clock data : forall i e,
  snd (feed_all (Serial.parser (serial_manager e)) data) =
    replicate (List.length data) (Returns None) ->
  rx_bytes clock i data e =
  (with_parser (fst (feed_all (Serial.parser (serial_manager e)) data)) e,
   true).
Proof.
  induction data as [|b data IH]; intros i e Hs.
  - cbn [rx_bytes feed_all fst]. now rewrite with_parser_same.
  - rewrite feed_all_cons in Hs. cbn [snd List.length replicate] in Hs.
    injection Hs as Hb Hs.
    rewrite rx_bytes_cons. cbn zeta. rewrite Hb.
    rewrite IH.
    + rewrite feed_all_cons. cbn [fst].
      rewrite with_parser_twice.
      now destruct e as [d ds th ev us dm [sr rx st pr cn]].
    + now destruct e as [d ds th ev us dm [sr rx st pr cn]].
Qed.

Lemma rx_bytes_app_eq clock a : forall i b e,
  rx_bytes clock i (a ++ b) e =
  if snd (rx_bytes clock i a e)
  then rx_bytes clock (i + List.length a) b (fst (rx_bytes clock i a e))
  else rx_bytes clock i a e.
Proof.
  induction a as [|x a IH]; intros i b e.
  - cbn [app rx_bytes fst snd List.length]. now rewrite Nat.add_0_r.
  - cbn [app]. rewrite !rx_bytes_cons. cbn zeta.
    destruct (snd (feed _ x)) as [[[cmd pl]|]|err]; [| |reflexivity];
      rewrite IH; cbn [List.length]; now rewrite Nat.add_succ_r.
Qed.

(** X18. Reads may cut the stream anywhere: the worker fed a sequence of
    reads ends in the same state as the receive loop fed their
    concatenation, so a frame split over several reads is handled like a
    frame that arrives whole. *)
Theorem rx_worker_concat clock reads : forall i e,
  rx_worker clock i reads e = rx_bytes clock i (concat reads) e.
Proof.
  induction reads as [|data reads IH]; intros i e; [reflexivity|].
  cbn [rx_worker concat]. rewrite rx_bytes_app_eq.
  destruct (rx_bytes clock i data e) as [e' running]. cbn [fst snd].
  destruct running; [apply IH|reflexivity].
Qed.

(** X19. Receiving a packed frame is one call of the handler: when the
    parser is searching, the receive loop fed the bytes of
    [pack_frame(cmd, payload)] calls [on_serial_data(cmd, payload)] once, on
    the last byte, does nothing else to the state, keeps running and leaves
    the parser searching. *)
Theorem rx_bytes_packed_frame clock cmd pl frame e :
  is_bytes pl ->
  pack_frame cmd pl = Returns frame ->
  state (Serial.parser (serial_manager e)) = 0%Z ->
  exists p,
    state p = 0%Z /\
    rx_bytes clock 0 frame e =
    (with_parser p
       (on_serial_data (clock (List.length frame - 1)%nat) cmd pl e), true).
Proof.
  intros Hpl Hpack Hst.
  destruct (pack_frame_returns _ _ _ Hpack) as (Hc & Hl & ->).
  destruct (feed_body _ cmd pl Hst Hc Hpl Hl) as (ex & pl' & Hbody).
  rewrite wire_length, wire_split, rx_bytes_app_eq.
  rewrite (rx_bytes_silent clock _ 0 e)
    by (rewrite Hbody; cbn [snd]; f_equal; rewrite length_app;
        cbn [List.length]; lia).
  rewrite Hbody. cbn [fst snd].
  rewrite rx_bytes_cons. cbn zeta.
  replace (Serial.parser (serial_manager (with_parser _ e)))
    with (mkFrameParser 3 ([(1 + Z.of_nat (List.length pl))%Z; cmd] ++ pl)
            (1 + Z.of_nat (List.length pl)) ex pl')
    by now destruct e as [d ds th ev us dm [sr rx st pr cn]].
  rewrite feed_checksum, Z.eqb_refl. cbn [fst snd].
  rewrite with_parser_twice, rx_bytes_cons. cbn zeta.
  replace (Serial.parser (serial_manager (with_parser _ e)))
    with (mkFrameParser 4 ([(1 + Z.of_nat (List.length pl))%Z; cmd] ++ pl)
            (1 + Z.of_nat (List.length pl)) ex pl')
    by now destruct e as [d ds th ev us dm [sr rx st pr cn]].
  cbn [app]. rewrite feed_terminator, py_slice_body. cbn [fst snd rx_bytes].
  rewrite with_parser_twice, on_serial_data_with_parser.
  exists (mkFrameParser 0 ((1 + Z.of_nat (List.length pl))%Z :: cmd :: pl)
            (1 + Z.of_nat (List.length pl)) ex pl').
  split; [reflexivity|].
  do 4 f_equal. cbn [List.length]. lia.
Qed.

Lemma rx_bytes_packed_frame_witness :
  exists p,
    state p = 0%Z /\
    rx_bytes (fun _ => "08:00:00") 0 [0xAA; 2; 2; 0x12; 0x12; 0x55]%Z Env.init =
    (with_parser p
       (on_serial_data "08:00:00" 2 [0x12]%Z Env.init), true).
Proof.
  apply (rx_bytes_packed_frame (fun _ => "08:00:00") 2 [0x12]%Z
           [0xAA; 2; 2; 0x12; 0x12; 0x55]%Z Env.init).
  - repeat constructor.
  - reflexivity.
  - reflexivity.
Defined.

Lemma rx_bytes_parser_ok clock data : forall i e,
  parser_ok (Serial.parser (serial_manager e)) = true ->
  is_bytes data ->
  snd (rx_bytes clock i data e) = true /\
  parser_ok (Serial.parser (serial_manager (fst (rx_bytes clock i data e))))
    = true.
Proof.
  induction data as [|b data IH]; intros i e Hok Hd; [now cbn|].
  inversion Hd as [|? ? Hb Hd']; subst.
  destruct (feed_ok _ b Hok Hb) as [Hok' Hr].
  rewrite rx_bytes_cons. cbn zeta.
  destruct (snd (feed _ b)) as [[[cmd pl]|]|err]; [| |contradiction].
  - apply IH; [|assumption].
    rewrite on_serial_data_with_parser.
    destruct (on_serial_data (clock i) cmd pl e)
      as [d ds th ev us dm [sr rx st pr cn]]. exact Hok'.
  - apply IH; [|assumption].
    destruct e as [d ds th ev us dm [sr rx st pr cn]]. exact Hok'.
Qed.
End ReceiveFacts.

(** * Invariants over all operations: facts *)

Section OperationFacts.
Import Frame Env.
Local Open Scope string_scope.

Lemma auto_control_manager clock e :
  serial_manager (auto_control clock e) = serial_manager e.
Proof.
  rewrite auto_control_unfold.
  match goal with
  | |- serial_manager (log_changes ?c ?i ?ch ?x) = _ =>
      destruct (log_changes_frame c ch i x) as (_ & _ & _ & ->)
  end.
  now destruct e.
Qed.

Lemma log_changes_modes clock changes : forall i e,
  use_simulation (log_changes clock i changes e) = use_simulation e /\
  data_mode (log_changes clock i changes e) = data_mode e.
Proof.
  induction changes as [|c changes IH]; intros i e; cbn [log_changes].
  - tauto.
  - destruct (IH (S i) (add_event (clock i) "DEVICE" c "INFO" e)) as [-> ->].
    apply add_event_modes.
Qed.

Lemma rx_bytes_modes clock data : forall i e,
  use_simulation (fst (rx_bytes clock i data e)) = use_simulation e /\
  data_mode (fst (rx_bytes clock i data e)) = data_mode e.
Proof.
  induction data as [|b data IH]; intros i e; [now cbn|].
  rewrite rx_bytes_cons. cbn zeta.
  destruct (snd (feed _ b)) as [[[cmd pl]|]|err].
  - destruct (IH (S i) (on_serial_data (clock i) cmd pl
                          (with_parser (feed (Serial.parser (serial_manager e)) b).1 e)))
      as [-> ->].
    destruct (on_serial_data_keeps (clock i) cmd pl
                (with_parser (feed (Serial.parser (serial_manager e)) b).1 e))
      as (_ & -> & -> & _).
    now destruct e.
  - destruct (IH (S i) (with_parser (feed (Serial.parser (serial_manager e)) b).1 e))
      as [-> ->].
    now destruct e.
  - now destruct e.
Qed.

Lemma perform_modes op e : modes_agree e -> modes_agree (perform op e).
Proof.
  unfold modes_agree. intros H.
  destruct op as [d|clock|now cmd pl|clock bytes|now device action
                 |now device st|clock mode|now sensor ty value vt
                 |avail lib now port baud|clock]; cbn [perform].
  - now destruct e.
  - rewrite auto_control_unfold.
    match goal with
    | |- context [log_changes ?c ?i ?ch ?x] =>
        destruct (log_changes_modes c ch i x) as [-> ->]
    end.
    now destruct e.
  - destruct (on_serial_data_keeps now cmd pl e) as (_ & -> & -> & _).
    exact H.
  - destruct (rx_bytes_modes clock bytes 0 e) as [-> ->]. exact H.
  - unfold Web.control_device.
    destruct (get device (device_states e)); [|exact H]. cbn [fst].
    destruct (negb _); [|now destruct e].
    match goal with
    | |- context [add_event ?n ?t ?m ?l ?x] =>
        destruct (add_event_modes n t m l x) as [-> ->]
    end.
    now destruct e.
  - unfold send_device_command.
    destruct (negb _); [exact H|].
    destruct (lookup_key device device_map); [|exact H].
    destruct (mk_bytes _); [|exact H].
    destruct (Serial.send_command _ _ _) as [mgr [[] msg]]; cbn [fst];
      [|now destruct e].
    match goal with
    | |- context [add_event ?n ?t ?m ?l ?x] =>
        destruct (add_event_modes n t m l x) as [-> ->]
    end.
    now destruct e.
  - unfold set_data_mode.
    destruct (String.eqb_spec mode "serial") as [->|Hs].
    + cbn [orb String.eqb Ascii.eqb Bool.eqb andb].
      destruct (negb _); cbn [fst]; [|destruct e; cbn; auto].
      destruct (negb (Serial.connected _));
        repeat match goal with
               | |- context [add_event ?n ?t ?m ?l ?x] =>
                   destruct (add_event_modes n t m l x) as [-> ->]
               end;
        destruct e; cbn; auto.
    + destruct (String.eqb_spec mode "simulation") as [->|Hm];
        cbn [orb]; [|exact H].
      destruct (negb _); cbn [fst]; [|destruct e; cbn; auto].
      cbn [String.eqb Ascii.eqb Bool.eqb andb].
      match goal with
      | |- context [add_event ?n ?t ?m ?l ?x] =>
          destruct (add_event_modes n t m l x) as [-> ->]
      end.
      destruct e; cbn; auto.
  - unfold Web.update_threshold.
    destruct (Web.store_threshold _ _ _ _); [|exact H]. cbn [fst].
    match goal with
    | |- context [add_event ?n ?t ?m ?l ?x] =>
        destruct (add_event_modes n t m l x) as [-> ->]
    end.
    now destruct e.
  - unfold Web.connect_serial.
    destruct (Serial.connect _ _ _ _ _) as [mgr [[] msg]]; cbn [fst];
      [|now destruct e].
    match goal with
    | |- context [add_event ?n ?t ?m ?l ?x] =>
        destruct (add_event_modes n t m l x) as [-> ->]
    end.
    destruct H as [Hu Hd].
    destruct (String.eqb_spec (data_mode (set_serial_manager mgr e)) "serial")
      as [Heq|Hne].
    + destruct e as [d ds th ev us dm sm]. cbn in *. subst dm. auto.
    + destruct e as [d ds th ev us dm sm]. cbn in *. auto.
  - unfold Web.disconnect_serial.
    destruct (Serial.disconnect _) as [mgr [[] msg]]; cbn [fst];
      [|now destruct e].
    destruct (String.eqb (data_mode (set_serial_manager mgr e)) "serial");
      repeat match goal with
             | |- context [add_event ?n ?t ?m ?l ?x] =>
                 destruct (add_event_modes n t m l x) as [-> ->]
             end;
      now destruct e.
Qed.

(** X20. The two mode attributes never disagree: after any sequence of
    operations on a fresh [EnvironmentData], [data_mode] is ['serial'] or
    ['simulation'] and [use_simulation] is true exactly when it is
    ['simulation']. *)
Theorem mode_flags_agree ops :
  let e := perform_all ops Env.init in
  use_simulation e = String.eqb (data_mode e) "simulation" /\
  (data_mode e = "serial" \/ data_mode e = "simulation").
Proof.
  unfold perform_all.
  assert (H : modes_agree Env.init) by (split; [reflexivity|now right]).
  revert H. generalize Env.init.
  induction ops as [|op ops IH]; intros e H; cbn [fold_left]; [exact H|].
  apply IH, perform_modes, H.
Qed.

Lemma send_command_parser m cmd pl :
  Serial.parser (fst (Serial.send_command m cmd pl)) = Serial.parser m.
Proof.
  unfold Serial.send_command.
  destruct (Serial.connected m), (Serial.ser m); try reflexivity.
  now destruct (bind _ _).
Qed.

Lemma connect_parser avail lib m port baud :
  Serial.parser (fst (Serial.connect avail lib m port baud)) = Serial.parser m.
Proof.
  unfold Serial.connect. destruct (negb avail); [reflexivity|].
  destruct (Serial.ser m) as [q|]; [destruct (Serial.is_open q)|];
    now destruct (Serial.Serial lib port baud).
Qed.

Lemma perform_parser op e :
  receives_bytes op = true ->
  parser_ok (Serial.parser (serial_manager e)) = true ->
  parser_ok (Serial.parser (serial_manager (perform op e))) = true.
Proof.
  intros Hb Hok.
  destruct op as [d|clock|now cmd pl|clock bytes|now device action
                 |now device st|clock mode|now sensor ty value vt
                 |avail lib now port baud|clock]; cbn [perform].
  - now destruct e.
  - now rewrite auto_control_manager.
  - destruct (on_serial_data_keeps now cmd pl e) as (_ & _ & _ & ->).
    exact Hok.
  - cbn [receives_bytes] in Hb. apply is_bytes_forallb in Hb.
    now apply rx_bytes_parser_ok.
  - unfold Web.control_device.
    destruct (get device (device_states e)); [|exact Hok]. cbn [fst].
    destruct (negb _); [rewrite add_event_manager|]; now destruct e.
  - unfold send_device_command.
    destruct (negb _); [exact Hok|].
    destruct (lookup_key device device_map); [|exact Hok].
    destruct (mk_bytes _) as [pl|err]; [|exact Hok].
    pose proof (send_command_parser (serial_manager e) 3 pl) as Hp.
    destruct (Serial.send_command _ _ _) as [mgr [[] msg]]; cbn [fst] in *;
      [rewrite add_event_manager|]; destruct e; cbn in *; now rewrite Hp.
  - unfold set_data_mode.
    destruct (_ || _); [|exact Hok].
    destruct (negb _); cbn [fst]; [|now destruct e].
    destruct (_ && _); rewrite ?add_event_manager; now destruct e.
  - unfold Web.update_threshold.
    destruct (Web.store_threshold _ _ _ _); [|exact Hok]. cbn [fst].
    rewrite add_event_manager. now destruct e.
  - unfold Web.connect_serial.
    pose proof (connect_parser avail lib (serial_manager e) port baud) as Hp.
    destruct (Serial.connect _ _ _ _ _) as [mgr [[] msg]]; cbn [fst] in *.
    + rewrite add_event_manager.
      destruct (String.eqb _ _); destruct e; cbn in *; now rewrite Hp.
    + destruct e; cbn in *; now rewrite Hp.
  - unfold Web.disconnect_serial, Serial.disconnect. cbn [fst].
    destruct (String.eqb _ _); rewrite ?add_event_manager; now destruct e.
Qed.

(** X21. The receive loop cannot die of a parser exception: on a fresh
    [EnvironmentData], after any sequence of operations in which what was
    received were bytes, the loop fed any further bytes consumes them all
    without [feed] raising. *)
Theorem receive_loop_keeps_running ops clock i data :
  forallb receives_bytes ops = true ->
  is_bytes data ->
  snd (rx_bytes clock i data (perform_all ops Env.init)) = true.
Proof.
  intros Hops Hd. apply rx_bytes_parser_ok; [|exact Hd].
  unfold perform_all.
  assert (H : parser_ok (Serial.parser (serial_manager Env.init)) = true)
    by reflexivity.
  revert H Hops. generalize Env.init.
  induction ops as [|op ops IH]; intros e H Hops; cbn [fold_left]; [exact H|].
  cbn [forallb] in Hops. apply andb_true_iff in Hops as [Hop Hops].
  apply IH; [now apply perform_parser|exact Hops].
Qed.

Lemma receive_loop_keeps_running_witness :
  snd (rx_bytes (fun _ => "08:00:09") 0 [0x55; 0xAA; 0; 0xAA]%Z
         (perform_all
            [OpReceive (fun _ => "08:00:00") [0xAA; 0xFF; 2; 3]%Z;
             OpDisconnect (fun _ => "08:00:01");
             OpMode (fun _ => "08:00:02") "serial";
             OpReceive (fun _ => "08:00:03") [0xAA; 0xAA; 0x55]%Z]
            Env.init)) = true.
Proof.
  apply (receive_loop_keeps_running
           [OpReceive (fun _ => "08:00:00") [0xAA; 0xFF; 2; 3]%Z;
            OpDisconnect (fun _ => "08:00:01");
            OpMode (fun _ => "08:00:02") "serial";
            OpReceive (fun _ => "08:00:03") [0xAA; 0xAA; 0x55]%Z]
           (fun _ => "08:00:09") 0 [0x55; 0xAA; 0; 0xAA]%Z).
  - reflexivity.
  - repeat constructor.
Defined.
End OperationFacts.

(** * Handlers and routes: facts *)

Section RouteFacts.
Import Env.
Local Open Scope string_scope.

Lemma last_add_event now ty msg lvl e :
  last (events (add_event now ty msg lvl e)) = Some (mkEvent now ty msg lvl).
Proof.
  unfold add_event. destruct e as [d ds th ev us dm sm].
  cbn [events set_events].
  destruct (Z.gtb_spec (Z.of_nat (List.length (ev ++ [mkEvent now ty msg lvl])))
              100) as [Hgt|Hle]; [|apply last_snoc].
  destruct ev as [|x ev]; [cbn in Hgt; lia|].
  cbn [app drop]. apply last_snoc.
Qed.

Lemma py_slice_first_twenty (l : list Z) :
  (20 <= List.length l)%nat -> py_slice l 0 20 = take 20 l.
Proof.
  intros Hl. unfold py_slice, py_clamp.
  replace (0 <? 0)%Z with false by reflexivity.
  replace (20 <? 0)%Z with false by reflexivity.
  rewrite Z.min_l, Z.min_l by lia. reflexivity.
Qed.

Lemma on_sensor_frame now pl e :
  (20 <= List.length pl)%nat ->
  on_serial_data now 0x01 pl e =
  add_event now "SERIAL" "接收到环境数据" "INFO"
    (set_data
       {| temperature := field (take 20 pl) 0;
          humidity := field (take 20 pl) 1;
          co2 := field (take 20 pl) 2; light := light (data e);
          smoke := field (take 20 pl) 4;
          pm25 := Some (field (take 20 pl) 3) |} e).
Proof.
  intros Hl. unfold on_serial_data. cbn [Z.eqb Pos.eqb].
  replace (Z.of_nat (List.length pl) >=? 20)%Z with true
    by (symmetry; rewrite Z.geb_leb; apply Z.leb_le; lia).
  rewrite py_slice_first_twenty by assumption. unfold unpack_5f.
  replace (Z.of_nat (List.length (take 20 pl)) =? 20)%Z with true
    by (symmetry; apply Z.eqb_eq; rewrite length_take; lia).
  reflexivity.
Qed.

(** X22. A sensor frame is read from its first 20 bytes only: with a payload
    of 20 bytes, followed by any further bytes, [on_serial_data] stores the
    five decoded values (the fourth as [pm25], never as [light]), keeps
    light, device flags and thresholds, and logs one SERIAL entry; the
    [except] branch, which would log an ERROR entry, is not reached. *)
Theorem sensor_frame_reads_twenty_bytes now payload extra e :
  List.length payload = 20%nat ->
  let e' := on_serial_data now 0x01 (payload ++ extra) e in
  e' = on_serial_data now 0x01 payload e /\
  data e' =
    {| temperature := field payload 0; humidity := field payload 1;
       co2 := field payload 2; light := light (data e);
       smoke := field payload 4; pm25 := Some (field payload 3) |} /\
  device_states e' = device_states e /\
  thresholds e' = thresholds e /\
  last (events e') = Some (sensor_event now).
Proof.
  intros Hlen e'. subst e'.
  rewrite !on_sensor_frame by (rewrite ?length_app; lia).
  rewrite take_app_length' by (symmetry; exact Hlen).
  rewrite (take_ge payload) by lia.
  split; [reflexivity|].
  match goal with
  | |- context [add_event ?n ?t ?m ?l ?x] =>
      destruct (add_event_frame n t m l x) as (-> & -> & -> & _)
  end.
  rewrite last_add_event. now destruct e.
Qed.

Lemma sensor_frame_reads_twenty_bytes_witness :
  let payload := [0; 0; 200; 65; 0; 0; 112; 66; 0; 0; 200; 67;
                  0; 0; 128; 63; 0; 0; 0; 128]%Z in
  let e' := on_serial_data "08:00:00" 0x01 (payload ++ [9; 9]%Z) Env.init in
  e' = on_serial_data "08:00:00" 0x01 payload Env.init /\
  data e' =
    {| temperature := field payload 0; humidity := field payload 1;
       co2 := field payload 2; light := light (data Env.init);
       smoke := field payload 4; pm25 := Some (field payload 3) |} /\
  device_states e' = device_states Env.init /\
  thresholds e' = thresholds Env.init /\
  last (events e') = Some (sensor_event "08:00:00").
Proof.
  intros payload.
  apply (sensor_frame_reads_twenty_bytes "08:00:00" payload [9; 9]%Z Env.init).
  reflexivity.
Defined.

(** X23. Command byte and status byte are one encoding: the status byte
    [send_device_command] computes for a device and a desired state, read
    back by [on_serial_data] as a device-state frame, sets the six flags to
    the recorded states with that one device switched as desired. *)
Theorem status_byte_round_trip now device st e :
  In device (map fst device_map) ->
  device_states
    (on_serial_data now 0x02
       [status_loop device st (items (device_states e)) 0] e) =
  set device st (device_states e).
Proof.
  intros Hdev. rewrite on_device_frame_devices.
  destruct (device_states e) as [h c hu de v cv].
  cbn in Hdev.
  destruct Hdev as [<-|[<-|[<-|[<-|[<-|[<-|[]]]]]]];
    destruct st, h, c, hu, de, v, cv; reflexivity.
Qed.

Lemma status_byte_round_trip_witness :
  device_states
    (on_serial_data "08:00:00" 0x02
       [status_loop "cooling" true (items (device_states Env.init)) 0]
       Env.init) =
  set "cooling" true (device_states Env.init).
Proof.
  apply (status_byte_round_trip "08:00:00" "cooling" true Env.init).
  cbn. auto.
Defined.

(** X24. Sending a command is no bookkeeping: [send_device_command] never
    changes the recorded device flags, the sample or the thresholds; it
    succeeds exactly when the link is up and the device is one of the six,
    and when it fails it has changed nothing at all. *)
Theorem send_device_command_keeps_flags now device st e :
  let r := send_device_command now device st e in
  device_states (fst r) = device_states e /\
  data (fst r) = data e /\
  thresholds (fst r) = thresholds e /\
  fst (snd r) =
    link_up e && match lookup_key device device_map with
                 | Some _ => true
                 | None => false
                 end /\
  (fst (snd r) = true \/ fst r = e).
Proof.
  intros r. subst r. unfold send_device_command, link_up.
  destruct e as [d ds th ev us dm [sr rx sp pr cn]].
  cbn [serial_manager Serial.connected Serial.ser device_states data
       thresholds].
  destruct cn; cbn [negb andb fst snd device_states data thresholds];
    [|repeat split; now right].
  destruct (lookup_key device device_map) as [mask|];
    [|rewrite andb_false_r; repeat split; now right].
  rewrite status_loop_spec.
  unfold mk_bytes. cbn [forallb]. rewrite status_byte_is_byte. cbn [andb].
  unfold Serial.send_command. cbn [Serial.connected Serial.ser].
  rewrite pack_frame_wire by (reflexivity || (simpl; lia)). cbn [bind].
  destruct sr as [[dev baud opn wr flt]|];
    [|cbn; repeat split; now right].
  unfold Serial.port_write. cbn [Serial.is_open Serial.fault].
  destruct opn; cbn [negb andb]; [|cbn; repeat split; now right].
  destruct flt as [msg|]; [cbn; repeat split; now right|].
  cbn [fst snd].
  match goal with
  | |- context [add_event ?n ?t ?m ?l ?x] =>
      destruct (add_event_frame n t m l x) as (-> & -> & -> & _)
  end.
  repeat split. now left.
Qed.

Lemma get_known device ds old :
  get device ds = Some old -> In device (map fst device_map).
Proof.
  unfold get, items. cbn [lookup_key map fst device_map In].
  destruct (String.eqb_spec "heating" device); [auto|].
  destruct (String.eqb_spec "cooling" device); [auto|].
  destruct (String.eqb_spec "humidify" device); [auto|].
  destruct (String.eqb_spec "dehumidify" device); [auto 6|].
  destruct (String.eqb_spec "ventilation" device); [auto 7|].
  destruct (String.eqb_spec "close_vent" device); [auto 8|].
  discriminate.
Qed.

Lemma get_set_same device v ds :
  In device (map fst device_map) -> get device (set device v ds) = Some v.
Proof.
  cbn. intros [<-|[<-|[<-|[<-|[<-|[<-|[]]]]]]]; reflexivity.
Qed.

Lemma get_set_other device dev v ds :
  dev <> device -> get dev (set device v ds) = get dev ds.
Proof.
  intros Hne. unfold set.
  destruct (String.eqb_spec device "heating") as [->|_];
    [|destruct (String.eqb_spec device "cooling") as [->|_];
      [|destruct (String.eqb_spec device "humidify") as [->|_];
        [|destruct (String.eqb_spec device "dehumidify") as [->|_];
          [|destruct (String.eqb_spec device "ventilation") as [->|_];
            [|destruct (String.eqb_spec device "close_vent") as [->|_];
              [|reflexivity]]]]]];
    unfold get, items;
    cbn [lookup_key set_heating set_cooling set_humidify set_dehumidify
         set_ventilation set_close_vent heating cooling humidify dehumidify
         ventilation close_vent];
    repeat match goal with
           | |- context [String.eqb ?a dev] =>
               destruct (String.eqb_spec a dev);
               [try reflexivity; try (subst; contradiction)|]
           end;
    reflexivity.
Qed.

Lemma set_set device v ds : set device v (set device v ds) = set device v ds.
Proof.
  unfold set.
  destruct (String.eqb device "heating"); [reflexivity|].
  destruct (String.eqb device "cooling"); [reflexivity|].
  destruct (String.eqb device "humidify"); [reflexivity|].
  destruct (String.eqb device "dehumidify"); [reflexivity|].
  destruct (String.eqb device "ventilation"); [reflexivity|].
  destruct (String.eqb device "close_vent"); reflexivity.
Qed.

(** X25. A manual request writes one flag: for a device that is a key of
    [device_states], [control_device] answers success with the new state,
    which is on exactly for the action ['on'] (any other action switches
    off); the flag of that device reads back as the new state, every other
    flag reads as before, and sample and thresholds are untouched. *)
Theorem control_device_writes_one_flag now device action old e :
  get device (device_states e) = Some old ->
  let r := Web.control_device now device action e in
  let new_state := String.eqb action "on" in
  snd r = Web.Success device new_state /\
  get device (device_states (fst r)) = Some new_state /\
  (forall dev, dev <> device ->
     get dev (device_states (fst r)) = get dev (device_states e)) /\
  data (fst r) = data e /\ thresholds (fst r) = thresholds e.
Proof.
  intros Hget r new_state. subst r new_state.
  pose proof (get_known _ _ _ Hget) as Hknown.
  assert (Hds : device_states (fst (Web.control_device now device action e)) =
                set device (String.eqb action "on") (device_states e))
    by (rewrite control_device_devices; now rewrite Hget).
  rewrite Hds. unfold Web.control_device. rewrite Hget. cbn [fst snd].
  split; [reflexivity|]. split; [now apply get_set_same|].
  split; [intros dev Hne; now apply get_set_other|].
  destruct (negb _).
  - match goal with
    | |- context [add_event ?n ?t ?m ?l ?x] =>
        destruct (add_event_frame n t m l x) as (-> & _ & -> & _)
    end.
    now destruct e.
  - now destruct e.
Qed.

Lemma control_device_writes_one_flag_witness :
  let r := Web.control_device "08:00:00" "ventilation" "toggle"
             (set_device_states
                (mkDeviceStates true false false false true false) Env.init) in
  let new_state := String.eqb "toggle" "on" in
  snd r = Web.Success "ventilation" new_state /\
  get "ventilation" (device_states (fst r)) = Some new_state /\
  (forall dev, dev <> "ventilation" ->
     get dev (device_states (fst r)) =
     get dev (device_states
                (set_device_states
                   (mkDeviceStates true false false false true false)
                   Env.init))) /\
  data (fst r) = data (set_device_states
                         (mkDeviceStates true false false false true false)
                         Env.init) /\
  thresholds (fst r) =
    thresholds (set_device_states
                  (mkDeviceStates true false false false true false) Env.init).
Proof.
  apply (control_device_writes_one_flag "08:00:00" "ventilation" "toggle" true
           (set_device_states
              (mkDeviceStates true false false false true false) Env.init)).
  reflexivity.
Defined.

Lemma set_device_states_same e : set_device_states (device_states e) e = e.
Proof. now destruct e. Qed.

(** X26. A repeated manual request is a no-op: the same device and action
    asked a second time get the same answer and leave the state, event log
    included, as the first request left it. *)
Theorem control_device_repeat now1 now2 device action e :
  let once := Web.control_device now1 device action e in
  Web.control_device now2 device action (fst once) = (fst once, snd once).
Proof.
  intros once. subst once.
  destruct (get device (device_states e)) as [old|] eqn:Hget.
  - pose proof (get_known _ _ _ Hget) as Hknown.
    assert (Hds : device_states (fst (Web.control_device now1 device action e))
                  = set device (String.eqb action "on") (device_states e))
      by (rewrite control_device_devices; now rewrite Hget).
    unfold Web.control_device at 1. rewrite Hds.
    rewrite get_set_same by assumption. rewrite set_set, <- Hds.
    rewrite Bool.eqb_reflx. cbn [negb].
    unfold Web.control_device. rewrite Hget. cbn [fst snd].
    f_equal. apply set_device_states_same.
  - unfold Web.control_device. rewrite Hget. cbn [fst snd].
    now rewrite Hget.
Qed.

(** X27. Asking for the mode that is already active raises: for a valid
    mode equal to the current [data_mode], [set_data_mode] ends with an
    [UnboundLocalError] instead of an answer, because [mode_name] is only
    bound when the mode changes; the event log and the mode are as before.
    On a fresh [EnvironmentData] this is the request for ['simulation']. *)
Theorem set_data_mode_same_mode_raises clock mode e :
  mode = "serial" \/ mode = "simulation" ->
  data_mode e = mode ->
  let r := set_data_mode clock mode e in
  snd r = ModeUnboundLocalError /\
  events (fst r) = events e /\
  data_mode (fst r) = data_mode e /\
  use_simulation (fst r) = String.eqb mode "simulation" /\
  snd (set_data_mode clock "simulation" Env.init) = ModeUnboundLocalError.
Proof.
  intros Hvalid Hsame r. subst r. unfold set_data_mode.
  replace (String.eqb mode "serial" || String.eqb mode "simulation")
    with true by (destruct Hvalid as [->| ->]; reflexivity).
  rewrite Hsame, String.eqb_refl. cbn [negb fst snd].
  destruct e as [d ds th ev us dm sm]. cbn in *. subst dm. auto.
Qed.

Lemma set_data_mode_same_mode_raises_witness :
  let e := assign_data_mode "serial" Env.init in
  let r := set_data_mode (fun _ => "08:00:00") "serial" e in
  snd r = ModeUnboundLocalError /\
  events (fst r) = events e /\
  data_mode (fst r) = data_mode e /\
  use_simulation (fst r) = String.eqb "serial" "simulation" /\
  snd (set_data_mode (fun _ => "08:00:00") "simulation" Env.init)
    = ModeUnboundLocalError.
Proof.
  intros e.
  apply (set_data_mode_same_mode_raises (fun _ => "08:00:00") "serial" e).
  - now left.
  - reflexivity.
Defined.

(** X28. Switching the mode: for a valid mode other than the current one,
    [set_data_mode] answers success, stores the mode and sets
    [use_simulation] accordingly, touches neither sample, flags nor
    thresholds, and logs a SYSTEM entry, followed by a WARNING entry
    exactly when the new mode is ['serial'] and the manager is not
    connected. *)
Theorem set_data_mode_switch clock mode e :
  mode = "serial" \/ mode = "simulation" ->
  data_mode e <> mode ->
  (List.length (events e) <= 100)%nat ->
  let r := set_data_mode clock mode e in
  let mode_name := if String.eqb mode "serial" then "串口数据" else "模拟数据" in
  let warn := String.eqb mode "serial"
              && negb (Serial.connected (serial_manager e)) in
  snd r = ModeReturns true ("数据模式已切换到: " ++ mode_name) /\
  data_mode (fst r) = mode /\
  use_simulation (fst r) = String.eqb mode "simulation" /\
  data (fst r) = data e /\ device_states (fst r) = device_states e /\
  thresholds (fst r) = thresholds e /\
  events (fst r) =
    keep_last 100
      (events e
         ++ [mkEvent (clock 0%nat) "SYSTEM" ("数据模式切换到: " ++ mode_name)
               "INFO"]
         ++ if warn
            then [mkEvent (clock 1%nat) "WARNING" "串口模式已启用，但串口未连接"
                    "WARNING"]
            else [])%list.
Proof.
  intros Hvalid Hne Hlen r mode_name warn. subst r warn.
  unfold set_data_mode.
  replace (String.eqb mode "serial" || String.eqb mode "simulation")
    with true by (destruct Hvalid as [->| ->]; reflexivity).
  replace (String.eqb (data_mode e) mode) with false
    by (symmetry; now apply String.eqb_neq).
  cbn [negb]. fold mode_name. rewrite add_event_manager.
  replace (serial_manager
             (assign_use_simulation (String.eqb mode "simulation")
                (assign_data_mode mode e)))
    with (serial_manager e) by now destruct e.
  set (e1 := assign_use_simulation (String.eqb mode "simulation")
               (assign_data_mode mode e)).
  assert (Hlen1 : (List.length (events e1) <= 100)%nat) by now destruct e.
  assert (He1 : events e1 = events e) by now destruct e.
  destruct (String.eqb mode "serial" && negb (Serial.connected (serial_manager e)));
    cbn [fst snd].
  - repeat match goal with
           | |- context [data (add_event ?n ?t ?m ?l ?x)] =>
               destruct (add_event_frame n t m l x) as (-> & -> & -> & _)
           end.
    repeat match goal with
           | |- context [data_mode (add_event ?n ?t ?m ?l ?x)] =>
               destruct (add_event_modes n t m l x) as [-> ->]
           end.
    rewrite add_event_events
      by (rewrite add_event_events, keep_last_length by assumption; lia).
    rewrite add_event_events by assumption.
    rewrite keep_last_app, He1, <- app_assoc.
    subst e1. destruct e. cbn. repeat split.
  - destruct (add_event_frame (clock 0%nat) "SYSTEM"
                ("数据模式切换到: " ++ mode_name) "INFO" e1)
      as (-> & -> & -> & _).
    destruct (add_event_modes (clock 0%nat) "SYSTEM"
                ("数据模式切换到: " ++ mode_name) "INFO" e1) as [-> ->].
    rewrite add_event_events by assumption. rewrite He1.
    subst e1. destruct e. cbn. repeat split.
Qed.

Lemma set_data_mode_switch_witness :
  let clock := fun i : nat => if Nat.eqb i 0 then "08:00:00" else "08:00:01" in
  let r := set_data_mode clock "serial" Env.init in
  let mode_name :=
    if String.eqb "serial" "serial" then "串口数据" else "模拟数据" in
  let warn := String.eqb "serial" "serial"
              && negb (Serial.connected (serial_manager Env.init)) in
  snd r = ModeReturns true ("数据模式已切换到: " ++ mode_name) /\
  data_mode (fst r) = "serial" /\
  use_simulation (fst r) = String.eqb "serial" "simulation" /\
  data (fst r) = data Env.init /\
  device_states (fst r) = device_states Env.init /\
  thresholds (fst r) = thresholds Env.init /\
  events (fst r) =
    keep_last 100
      (events Env.init
         ++ [mkEvent (clock 0%nat) "SYSTEM" ("数据模式切换到: " ++ mode_name)
               "INFO"]
         ++ if warn
            then [mkEvent (clock 1%nat) "WARNING" "串口模式已启用，但串口未连接"
                    "WARNING"]
            else [])%list.
Proof.
  intros clock.
  apply (set_data_mode_switch clock "serial" Env.init).
  - now left.
  - discriminate.
  - cbn. lia.
Defined.



(** X30. Disconnecting does not fall back to simulation: the route
    [disconnect_serial] always answers success with [connected] false,
    leaves [data_mode] and [use_simulation] as they were, and logs a
    SERIAL entry, preceded by a WARNING entry exactly when the mode is
    ['serial']. *)
Theorem disconnect_serial_keeps_mode clock e :
  (List.length (events e) <= 100)%nat ->
  let r := Web.disconnect_serial clock e in
  Web.reply_success (snd r) = true /\
  Web.reply_connected (snd r) = false /\
  Serial.connected (serial_manager (fst r)) = false /\
  Web.reply_data_mode (snd r) = data_mode e /\
  data_mode (fst r) = data_mode e /\
  use_simulation (fst r) = use_simulation e /\
  events (fst r) =
    keep_last 100
      (events e
         ++ (if String.eqb (data_mode e) "serial"
             then [mkEvent (clock 0%nat) "WARNING"
                     "串口已断开，但仍处于串口数据模式" "WARNING"]
             else [])
         ++ [mkEvent (clock 1%nat) "SERIAL" "串口连接已断开" "INFO"])%list.
Proof.
  intros Hlen r. subst r. unfold Web.disconnect_serial, Serial.disconnect.
  cbn [fst snd Web.reply_success Web.reply_connected Web.reply_data_mode].
  set (m := Serial.mkSerialManager _ _ _ _ _).
  replace (data_mode (set_serial_manager m e)) with (data_mode e)
    by now destruct e.
  assert (Hlen1 : (List.length (events (set_serial_manager m e)) <= 100)%nat)
    by now destruct e.
  assert (He1 : events (set_serial_manager m e) = events e) by now destruct e.
  destruct (String.eqb (data_mode e) "serial").
  - repeat match goal with
           | |- context [serial_manager (add_event ?n ?t ?m ?l ?x)] =>
               rewrite (add_event_manager n t m l x)
           end.
    repeat match goal with
           | |- context [data_mode (add_event ?n ?t ?m ?l ?x)] =>
               destruct (add_event_modes n t m l x) as [-> ->]
           end.
    rewrite add_event_events
      by (rewrite add_event_events, keep_last_length by assumption; lia).
    rewrite add_event_events by assumption.
    rewrite keep_last_app, He1, <- app_assoc.
    destruct e; cbn. repeat split.
  - rewrite add_event_manager.
    destruct (add_event_modes (clock 1%nat) "SERIAL" "串口连接已断开" "INFO"
                (set_serial_manager m e)) as [-> ->].
    rewrite add_event_events by assumption. rewrite He1.
    destruct e; cbn. repeat split.
Qed.

Lemma disconnect_serial_keeps_mode_witness :
  let clock := fun i : nat => if Nat.eqb i 0 then "08:00:00" else "08:00:01" in
  let e := assign_data_mode "serial" Env.init in
  let r := Web.disconnect_serial clock e in
  Web.reply_success (snd r) = true /\
  Web.reply_connected (snd r) = false /\
  Serial.connected (serial_manager (fst r)) = false /\
  Web.reply_data_mode (snd r) = data_mode e /\
  data_mode (fst r) = data_mode e /\
  use_simulation (fst r) = use_simulation e /\
  events (fst r) =
    keep_last 100
      (events e
         ++ (if String.eqb (data_mode e) "serial"
             then [mkEvent (clock 0%nat) "WARNING"
                     "串口已断开，但仍处于串口数据模式" "WARNING"]
             else [])
         ++ [mkEvent (clock 1%nat) "SERIAL" "串口连接已断开" "INFO"])%list.
Proof.
  intros clock e. apply (disconnect_serial_keeps_mode clock e). cbn. lia.
Defined.

(** X10. Device flags are local bookkeeping: neither a control pass nor a
    manual request touches the serial manager, so whatever flags they flip,
    nothing is written to the port and no command reaches the board; only
    [send_device_command] writes. *)
Theorem flag_changes_send_nothing clock now device action e :
  serial_manager (auto_control clock e) = serial_manager e /\
  serial_manager (fst (Web.control_device now device action e))
    = serial_manager e /\
  sent (auto_control clock e) = sent e /\
  sent (fst (Web.control_device now device action e)) = sent e.
Proof.
  assert (H1 : serial_manager (auto_control clock e) = serial_manager e)
    by apply auto_control_manager.
  assert (H2 : serial_manager (fst (Web.control_device now device action e))
               = serial_manager e).
  { unfold Web.control_device.
    destruct (get device (device_states e)); [|reflexivity]. cbn [fst].
    destruct (negb _); [rewrite add_event_manager|]; now destruct e. }
  unfold sent. rewrite H1, H2. auto.
Qed.
End RouteFacts.
